(** * STAS redeem-split transaction builder (lib/stasRedeemSplit.js)

    A shallow embedding of the redeem-split builder of the STAS SDK and the
    properties of its output planning, signing coordination and fee
    estimation.

    Conventions of the embedding:
    - satoshi amounts are JavaScript numbers holding integers; they are [Z];
    - scripts, public keys, public-key hashes and addresses are strings;
    - an argument that may be [undefined] is an [option];
    - a thrown exception is the [Err] case of the [result] monad;
    - the code of the other modules ([./utility], [./stasTemplates],
      [./errors], [./stasFeeEstimates]) and of the bsv library is not part of
      this file: it is gathered in the record [Env], over which every
      definition and theorem is parametric.  The checkers of [./errors] and
      the constructor of an output may throw; the other collaborators are
      called for their value and are functions. *)

From Stdlib Require Import ZArith Lia.
From stdpp Require Import base list strings pretty.

Local Open Scope string_scope.
Local Open Scope list_scope.
Local Open Scope Z_scope.

(** ** Data model *)

(** A spendable output as handed in by the caller:
    [{ txid, vout, script, satoshis }]. *)
Record Utxo := mkUtxo {
  utxo_txid : string;
  utxo_vout : Z;
  utxo_script : string;
  utxo_satoshis : Z
}.

(** One element of [splitDestinations]: [{ address, satoshis }]. *)
Record SplitDestination := mkDest {
  dest_address : string;
  dest_satoshis : Z
}.

(** [bsv.Transaction.Output]. *)
Record Output := mkOutput {
  out_script : string;
  out_satoshis : Z
}.

(** [bsv.Transaction.Input]: the outpoint it spends, the output it spends
    ([input.output], with [_script] and [_satoshisBN]) and its unlocking
    script, kept as the ASM text given to [bsv.Script.fromASM]. *)
Record Input := mkInput {
  in_txid : string;
  in_vout : Z;
  in_output : Output;
  in_script : string
}.

(** [bsv.Transaction]: ordered inputs and ordered outputs. *)
Record Transaction := mkTx {
  inputs : list Input;
  outputs : list Output
}.

(** One element of [outputData], the plan given to the unlocking-script
    builder: [{ publicKeyHash, satoshis }]. *)
Record OutputData := mkOutputData {
  publicKeyHash : string;
  od_satoshis : Z
}.

(** One element of [unsignedData]. *)
Record UnsignedInput := mkUnsignedInput {
  inputIndex : nat;
  ui_satoshis : Z;
  ui_script : string;
  ui_sighash : Z;
  publicKeyString : string;
  stas : bool
}.

(** A private key object; [publicKey] is [key.publicKey.toString('hex')]. *)
Record PrivateKey := mkPrivateKey {
  pk_secret : string;
  publicKey : string
}.

(** What a build resolves with.  The documentation of the module announces
    [Promise<string|object>]: a hexadecimal string, or the object
    [{ unsignedData, tx }]; the code also has the transaction object itself. *)
Inductive BuildResult :=
| ResHex (hex : string)
| ResTx (tx : Transaction)
| ResUnsigned (unsignedData : list UnsignedInput) (tx : Transaction).

Definition result_tx (r : BuildResult) : option Transaction :=
  match r with
  | ResHex _ => None
  | ResTx tx => Some tx
  | ResUnsigned _ tx => Some tx
  end.

Definition result_unsignedData (r : BuildResult) : option (list UnsignedInput) :=
  match r with
  | ResUnsigned ud _ => Some ud
  | _ => None
  end.

(** ** Exceptions *)

Inductive error :=
| ValidationError          (* errors.validateRedeemSplitArgs threw *)
| DestinationAddressError  (* errors.checkDestinationAddressCondition threw *)
| ZeroChangeError (functionName : string)
                           (* errors.checkZeroChangeThreshold threw *)
| OutputAmountError        (* the bsv Output constructor refused the amount *)
| TypeError (what : string)(* a property was read on undefined *)
| ParseError.              (* the bsv Transaction constructor refused its argument *)

Inductive result (A : Type) :=
| Ok (a : A)
| Err (e : error).
Arguments Ok {A} a.
Arguments Err {A} e.

Definition bind {A B} (m : result A) (k : A -> result B) : result B :=
  match m with
  | Ok a => k a
  | Err e => Err e
  end.

Notation "'let*' x ':=' m 'in' k" := (bind m (fun x => k))
  (at level 10, x pattern, m at level 100, k at level 200).

(** [check b e]: a checker of [./errors] that passes ([b = true]) or throws. *)
Definition check (b : bool) (e : error) : result unit :=
  if b then Ok tt else Err e.

(** Reading a property of a value that may be [undefined]. *)
Definition deref {A} (what : string) (o : option A) : result A :=
  match o with
  | Some a => Ok a
  | None => Err (TypeError what)
  end.

Definition is_ok {A} (m : result A) : bool :=
  match m with Ok _ => true | Err _ => false end.

(** [!v] for a value that is an object or [undefined]. *)
Definition isUndefined {A} (o : option A) : bool :=
  match o with Some _ => false | None => true end.

(** ** The collaborators *)

Record Env := mkEnv {
  (* ./errors *)
  validateRedeemSplitArgs :
    string -> Utxo -> string -> option Utxo -> list SplitDestination -> bool;
  checkDestinationAddressCondition : string -> string -> bool -> bool;
  checkZeroChangeThreshold : Z -> Z -> string -> bool;
  (* ./utility *)
  getPKHfromPublicKey : string -> string;
  addressToPKH : string -> string;
  buildP2pkhOutputScript : string -> string;
  SIGHASH : Z;
  SATS : Z;
  (* ./stasTemplates *)
  checkIfStas20 : string -> bool;
  getRedeemPublicKeyHash : string -> string;
  updateStasScript : string -> string -> string;
  formatDataToHexStringWithOpCodeConversion : string -> string;
  buildUnlockingScriptUnsigned :
    Transaction -> list OutputData -> bool -> option string -> bool -> bool -> string;
  (* ./stasFeeEstimates *)
  buildSplitDestinations : nat -> Z -> list SplitDestination;
  templatePrivateKey : PrivateKey;
  paymentUtxoTemplate : Utxo;
  (* bsv *)
  outputAmountOk : Z -> bool;
  Sighash_sign : Transaction -> PrivateKey -> Z -> nat -> string -> Z -> string;
  Transaction_parse : BuildResult -> result Transaction;
  estimateFee : Z -> Transaction -> Z
}.

(** The same collaborators with another [checkZeroChangeThreshold]. *)
Definition with_checkZeroChangeThreshold (E : Env) (chk : Z -> Z -> string -> bool) : Env :=
  {| validateRedeemSplitArgs := validateRedeemSplitArgs E;
     checkDestinationAddressCondition := checkDestinationAddressCondition E;
     checkZeroChangeThreshold := chk;
     getPKHfromPublicKey := getPKHfromPublicKey E;
     addressToPKH := addressToPKH E;
     buildP2pkhOutputScript := buildP2pkhOutputScript E;
     SIGHASH := SIGHASH E;
     SATS := SATS E;
     checkIfStas20 := checkIfStas20 E;
     getRedeemPublicKeyHash := getRedeemPublicKeyHash E;
     updateStasScript := updateStasScript E;
     formatDataToHexStringWithOpCodeConversion :=
       formatDataToHexStringWithOpCodeConversion E;
     buildUnlockingScriptUnsigned := buildUnlockingScriptUnsigned E;
     buildSplitDestinations := buildSplitDestinations E;
     templatePrivateKey := templatePrivateKey E;
     paymentUtxoTemplate := paymentUtxoTemplate E;
     outputAmountOk := outputAmountOk E;
     Sighash_sign := Sighash_sign E;
     Transaction_parse := Transaction_parse E;
     estimateFee := estimateFee E |}.

(** Modelled from the spec: [errors.checkZeroChangeThreshold], whose code is
    in [./errors].  The spec: when [paymentUtxo.satoshis - txCost] is below
    the dust threshold the operation fails with an insufficient-change
    error.  [true] means that the check passes. *)
Definition checkZeroChangeThreshold_spec (dust : Z)
    (paymentSats txCost : Z) (functionName : string) : bool :=
  negb (paymentSats - txCost <? dust).

(** Modelled from the spec: [feeEstimates.txCost], a constant of
    [./stasFeeEstimates].  The spec: the measuring build runs with
    [txCost = 0]. *)
Definition feeEstimates_txCost : Z := 0.

(** ** Operations of the transaction library used by the builder *)

(** [new bsv.Transaction()]. *)
Definition Transaction_new : Transaction := {| inputs := []; outputs := [] |}.

(** [tx.from(utxo)]: appends an input spending [utxo], with an empty
    unlocking script.  The UTXOs given to a build are taken to be UTXOs that
    the library accepts as inputs: of distinct outpoints, and of an amount
    that it can hold. *)
Definition spending (u : Utxo) : Input :=
  {| in_txid := utxo_txid u; in_vout := utxo_vout u;
     in_output := {| out_script := utxo_script u;
                     out_satoshis := utxo_satoshis u |};
     in_script := "" |}.

Definition from (u : Utxo) (tx : Transaction) : Transaction :=
  {| inputs := inputs tx ++ [spending u]; outputs := outputs tx |}.

(** [tx.addOutput(o)]. *)
Definition addOutput (o : Output) (tx : Transaction) : Transaction :=
  {| inputs := inputs tx; outputs := outputs tx ++ [o] |}.

(** [tx.inputs[i]], then a property of it. *)
Definition input_at (i : nat) (tx : Transaction) : result Input :=
  deref "tx.inputs[i]" (inputs tx !! i).

(** [tx.inputs[i].setScript(bsv.Script.fromASM(asm))]. *)
Definition with_script (asm : string) (inp : Input) : Input :=
  {| in_txid := in_txid inp; in_vout := in_vout inp;
     in_output := in_output inp; in_script := asm |}.

Definition setScript (i : nat) (asm : string) (tx : Transaction) : result Transaction :=
  let* inp := input_at i tx in
  Ok {| inputs := <[ i := with_script asm inp ]> (inputs tx);
        outputs := outputs tx |}.

Section Builder.

Variable E : Env.

(** [new bsv.Transaction.Output({ script, satoshis })]. *)
Definition Output_new (script : string) (sats : Z) : result Output :=
  let* _ := check (outputAmountOk E sats) OutputAmountError in
  Ok {| out_script := script; out_satoshis := sats |}.

(** [new bsv.Transaction(v)]: a transaction object is copied, anything else
    is parsed by the library. *)
Definition Transaction_of (v : BuildResult) : result Transaction :=
  match v with
  | ResTx tx => Ok tx
  | _ => Transaction_parse E v
  end.

(** ** Output planning (lines 26 to 90 of unSignedFunc) *)

(** [splitDestinations.reduce((a, b) => a + b.satoshis, 0)]. *)
Definition totalOutSats (splitDestinations : list SplitDestination) : Z :=
  fold_left (fun a b => a + dest_satoshis b) splitDestinations 0.

(** The body of the loop over [splitDestinations]: the state is the pair of
    the transaction and of [outputData]. *)
Definition addDestination (stasScript0 : string) (isStas20 : bool)
    (st : Transaction * list OutputData) (destinationData : SplitDestination)
    : result (Transaction * list OutputData) :=
  let '(tx, outputData) := st in
  let destinationPublicKeyHash := addressToPKH E (dest_address destinationData) in
  let destinationSatoshis := dest_satoshis destinationData in
  let stasScript := updateStasScript E destinationPublicKeyHash stasScript0 in
  let redeemAddr := getRedeemPublicKeyHash E stasScript in
  let* _ := check (checkDestinationAddressCondition E redeemAddr
                     destinationPublicKeyHash isStas20)
                  DestinationAddressError in
  let* o := Output_new stasScript destinationSatoshis in
  Ok (addOutput o tx,
      outputData ++ [ {| publicKeyHash := destinationPublicKeyHash;
                         od_satoshis := destinationSatoshis |} ]).

Fixpoint addDestinations (stasScript0 : string) (isStas20 : bool)
    (splitDestinations : list SplitDestination)
    (st : Transaction * list OutputData)
    : result (Transaction * list OutputData) :=
  match splitDestinations with
  | [] => Ok st
  | destinationData :: rest =>
      let* st' := addDestination stasScript0 isStas20 st destinationData in
      addDestinations stasScript0 isStas20 rest st'
  end.

(** What the planning leaves for the signing part: the transaction, the
    plan, and the values of the locals [data], [isStas20] and [isZeroFee]. *)
Record Plan := mkPlan {
  plan_tx : Transaction;
  plan_outputData : list OutputData;
  plan_data : option string;
  plan_isStas20 : bool;
  plan_isZeroFee : bool
}.

Definition planOutputs (ownerPublicKey : string) (stasUtxo : Utxo)
    (paymentPublicKey : string) (paymentUtxo : option Utxo)
    (splitDestinations : list SplitDestination) (data : option string)
    (isZeroChange : bool) (txCost : Z) (feeEstimateCall : bool) : result Plan :=
  let* _ := check (validateRedeemSplitArgs E ownerPublicKey stasUtxo
                     paymentPublicKey paymentUtxo splitDestinations)
                  ValidationError in
  let outputData : list OutputData := [] in
  let isZeroFee := isUndefined paymentUtxo in
  let paymentPublicKeyHash := getPKHfromPublicKey E paymentPublicKey in
  let isStas20 := checkIfStas20 E (utxo_script stasUtxo) in
  let redeemPkh := getRedeemPublicKeyHash E (utxo_script stasUtxo) in
  let redeemOutputScript := buildP2pkhOutputScript E redeemPkh in
  let redeemSats := utxo_satoshis stasUtxo - totalOutSats splitDestinations in
  let tx := Transaction_new in
  let tx := from stasUtxo tx in
  let* tx :=
    if negb isZeroFee
    then (let* p := deref "paymentUtxo" paymentUtxo in Ok (from p tx))
    else Ok tx in
  let* o := Output_new redeemOutputScript redeemSats in
  let tx := addOutput o tx in
  let outputData :=
    outputData ++ [ {| publicKeyHash := redeemPkh; od_satoshis := redeemSats |} ] in
  let* (tx, outputData) :=
    addDestinations (utxo_script stasUtxo) isStas20 splitDestinations
      (tx, outputData) in
  let* (tx, outputData) :=
    if negb isZeroFee && negb isZeroChange
    then
      (let* p := deref "paymentUtxo" paymentUtxo in
       let* o := Output_new (buildP2pkhOutputScript E paymentPublicKeyHash)
                   (utxo_satoshis p - txCost) in
       let tx := addOutput o tx in
       let* lastOutput := deref "tx.outputs[tx.outputs.length - 1]"
                            (last (outputs tx)) in
       Ok (tx, outputData ++ [ {| publicKeyHash := paymentPublicKeyHash;
                                  od_satoshis := out_satoshis lastOutput |} ]))
    else Ok (tx, outputData) in
  let* _ :=
    if isZeroChange && negb feeEstimateCall
    then
      (let* p := deref "paymentUtxo" paymentUtxo in
       check (checkZeroChangeThreshold E (utxo_satoshis p) txCost
                "RedeemSplit Function Zero Change")
             (ZeroChangeError "RedeemSplit Function Zero Change"))
    else Ok tt in
  let* (tx, data) :=
    match isStas20, data with
    | true, Some d =>
        let d := formatDataToHexStringWithOpCodeConversion E d in
        let lockingScriptNote := "006a" +:+ d in
        let* o := Output_new lockingScriptNote 0 in
        Ok (addOutput o tx, Some d)
    | _, _ => Ok (tx, data)
    end in
  Ok {| plan_tx := tx; plan_outputData := outputData; plan_data := data;
        plan_isStas20 := isStas20; plan_isZeroFee := isZeroFee |}.

(** ** Signing coordination (lines 93 to 116 of unSignedFunc) *)

(** The builder of [./stasTemplates] is called as
    [buildUnlockingScriptUnsigned(tx, outputData, undefined, isStas20, data,
    isZeroFee, isZeroChange)]; its third argument is always [undefined] and
    is left out of the model. *)
Definition signInputs (ownerPublicKey paymentPublicKey : string)
    (isZeroChange : bool) (ownerPrivateKey paymentPrivateKey : option PrivateKey)
    (pl : Plan) : result BuildResult :=
  let tx := plan_tx pl in
  let unsignedData : list UnsignedInput := [] in
  let unSignedUnlockingScript :=
    buildUnlockingScriptUnsigned E tx (plan_outputData pl) (plan_isStas20 pl)
      (plan_data pl) (plan_isZeroFee pl) isZeroChange in
  let* (tx, unsignedData) :=
    match ownerPrivateKey with
    | Some key =>
        let* inp := input_at 0 tx in
        let signature :=
          Sighash_sign E tx key (SIGHASH E) 0
            (out_script (in_output inp)) (out_satoshis (in_output inp)) in
        let* tx := setScript 0
                     (unSignedUnlockingScript +:+ " " +:+ signature +:+ " "
                        +:+ ownerPublicKey) tx in
        Ok (tx, unsignedData)
    | None =>
        let* tx := setScript 0 unSignedUnlockingScript tx in
        let* inp := input_at 0 tx in
        Ok (tx, unsignedData ++
                  [ {| inputIndex := 0;
                       ui_satoshis := out_satoshis (in_output inp);
                       ui_script := out_script (in_output inp);
                       ui_sighash := SIGHASH E;
                       publicKeyString := ownerPublicKey;
                       stas := true |} ])
    end in
  let* (tx, unsignedData) :=
    if negb (plan_isZeroFee pl)
    then
      match paymentPrivateKey with
      | Some key =>
          let* inp := input_at 1 tx in
          let signature :=
            Sighash_sign E tx key (SIGHASH E) 1
              (out_script (in_output inp)) (out_satoshis (in_output inp)) in
          let* tx := setScript 1 (signature +:+ " " +:+ paymentPublicKey) tx in
          Ok (tx, unsignedData)
      | None =>
          let* inp := input_at 1 tx in
          Ok (tx, unsignedData ++
                    [ {| inputIndex := 1;
                         ui_satoshis := out_satoshis (in_output inp);
                         ui_script := out_script (in_output inp);
                         ui_sighash := SIGHASH E;
                         publicKeyString := paymentPublicKey;
                         stas := false |} ])
      end
    else Ok (tx, unsignedData) in
  if negb (Nat.eqb (length unsignedData) 0)
  then Ok (ResUnsigned unsignedData tx)
  else Ok (ResTx tx).

(** ** The functions of the module *)

Definition unSignedFunc (ownerPublicKey : string) (stasUtxo : Utxo)
    (paymentPublicKey : string) (paymentUtxo : option Utxo)
    (splitDestinations : list SplitDestination) (data : option string)
    (isZeroChange : bool) (ownerPrivateKey paymentPrivateKey : option PrivateKey)
    (txCost : Z) (feeEstimateCall : bool) : result BuildResult :=
  let* pl := planOutputs ownerPublicKey stasUtxo paymentPublicKey paymentUtxo
               splitDestinations data isZeroChange txCost feeEstimateCall in
  signInputs ownerPublicKey paymentPublicKey isZeroChange
    ownerPrivateKey paymentPrivateKey pl.

Definition signedFunc (ownerPrivateKey : option PrivateKey) (stasUtxo : Utxo)
    (splitDestinations : list SplitDestination) (paymentUtxo : option Utxo)
    (paymentPrivateKey : option PrivateKey) (data : option string)
    (isZeroChange : bool) (txCost : Z) (feeEstimateCall : bool)
    : result BuildResult :=
  let* ownerKey := deref "ownerPrivateKey" ownerPrivateKey in
  let* paymentKey := deref "paymentPrivateKey" paymentPrivateKey in
  unSignedFunc (publicKey ownerKey) stasUtxo (publicKey paymentKey) paymentUtxo
    splitDestinations data isZeroChange ownerPrivateKey paymentPrivateKey
    txCost feeEstimateCall.

Definition feeEstimate (stasUtxo : Utxo)
    (splitDestinations : list SplitDestination) (data : option string)
    (isZeroChange : bool) : result Z :=
  let splitDest :=
    buildSplitDestinations E (length splitDestinations) (utxo_satoshis stasUtxo) in
  let* redeemSplitHex :=
    signedFunc (Some (templatePrivateKey E)) stasUtxo splitDest
      (Some (paymentUtxoTemplate E)) (Some (templatePrivateKey E)) data
      isZeroChange feeEstimates_txCost true in
  let* measured := Transaction_of redeemSplitHex in
  Ok (estimateFee E (SATS E) measured).

Definition signed (ownerPrivateKey : option PrivateKey) (stasUtxo : Utxo)
    (splitDestinations : list SplitDestination) (paymentUtxo : option Utxo)
    (paymentPrivateKey : option PrivateKey) (data : option string)
    (isZeroChange : bool) : result BuildResult :=
  let* txCost := feeEstimate stasUtxo splitDestinations data isZeroChange in
  signedFunc ownerPrivateKey stasUtxo splitDestinations paymentUtxo
    paymentPrivateKey data isZeroChange txCost false.

Definition unSigned (ownerPublicKey : string) (stasUtxo : Utxo)
    (paymentPublicKey : string) (paymentUtxo : option Utxo)
    (splitDestinations : list SplitDestination) (data : option string)
    (isZeroChange : bool) : result BuildResult :=
  let* txCost := feeEstimate stasUtxo splitDestinations data isZeroChange in
  unSignedFunc ownerPublicKey stasUtxo paymentPublicKey paymentUtxo
    splitDestinations data isZeroChange None None txCost false.

End Builder.

(** ** A sample set of collaborators

    Executable stand-ins for the collaborators, used to run the builder on
    concrete inputs.  A sample token script is the text
    [owner|redemption|kind|body]; the kind [20] marks a token that carries
    data. *)
Module Demo.

Definition bar : Ascii.ascii := Ascii.ascii_of_nat 124.

Fixpoint before_bar (s : string) : string :=
  match s with
  | EmptyString => EmptyString
  | String c r => if Ascii.eqb c bar then EmptyString else String c (before_bar r)
  end.

Fixpoint after_bar (s : string) : string :=
  match s with
  | EmptyString => EmptyString
  | String c r => if Ascii.eqb c bar then r else after_bar r
  end.

(** The two fields that follow the owner field of a sample token script
    are read with [after_bar] and [before_bar]. *)
Definition p2pkh (pkh : string) : string := "76a914" +:+ pkh +:+ "88ac".

Definition hash (s : string) : string := "h(" +:+ s +:+ ")".

(** The sample unsigned fragment lists the amount and the hash of every
    plan entry. *)
Definition planText (outputData : list OutputData) : string :=
  String.concat " "
    (map (fun od => pretty (od_satoshis od) +:+ " " +:+ publicKeyHash od) outputData).

(** The sample fee is the size of the transaction times the rate per
    1000, rounded up; the size counts every locking and unlocking script. *)
Definition scriptSize (s : string) : Z := Z.of_nat (String.length s).

Definition txSize (tx : Transaction) : Z :=
  10 + foldr Z.add 0 (map (fun i => 41 + scriptSize (in_script i)) (inputs tx))
     + foldr Z.add 0 (map (fun o => 9 + scriptSize (out_script o)) (outputs tx)).

Definition templateKey : PrivateKey :=
  {| pk_secret := "template-secret"; publicKey := "template-public" |}.

Definition env (dust : Z) : Env :=
  {| validateRedeemSplitArgs := fun _ _ _ _ dests => negb (Nat.eqb (length dests) 0);
     checkDestinationAddressCondition :=
       fun redeemAddr dest _ => negb (String.eqb redeemAddr dest);
     checkZeroChangeThreshold := checkZeroChangeThreshold_spec dust;
     getPKHfromPublicKey := hash;
     addressToPKH := hash;
     buildP2pkhOutputScript := p2pkh;
     SIGHASH := 65;
     SATS := 50;
     checkIfStas20 := fun s => String.prefix "20" (after_bar (after_bar s));
     getRedeemPublicKeyHash := fun s => before_bar (after_bar s);
     updateStasScript := fun pkh s => pkh +:+ "|" +:+ after_bar s;
     formatDataToHexStringWithOpCodeConversion := fun d => d;
     buildUnlockingScriptUnsigned :=
       fun _ outputData _ data _ _ =>
         planText outputData +:+ default "" data;
     buildSplitDestinations :=
       fun n sats => replicate n {| dest_address := "template-address";
                                    dest_satoshis := sats / (Z.of_nat n + 1) |};
     templatePrivateKey := templateKey;
     paymentUtxoTemplate :=
       {| utxo_txid := "template-txid"; utxo_vout := 0;
          utxo_script := p2pkh (hash "template-public");
          utxo_satoshis := 1000000 |};
     outputAmountOk := fun n => 0 <=? n;
     Sighash_sign := fun _ key _ _ _ _ => "sig(" +:+ pk_secret key +:+ ")";
     Transaction_parse := fun _ => Err ParseError;
     estimateFee := fun rate tx => (txSize tx * rate + 999) / 1000 |}.

Definition ownerKey : PrivateKey :=
  {| pk_secret := "owner-secret"; publicKey := "owner-public" |}.

Definition paymentKey : PrivateKey :=
  {| pk_secret := "payment-secret"; publicKey := "payment-public" |}.

Definition stasUtxo : Utxo :=
  {| utxo_txid := "aa"; utxo_vout := 0;
     utxo_script := "h(owner-public)|h(issuer)|20|token-body";
     utxo_satoshis := 10000 |}.

(** A token UTXO whose locking script is longer than the one of
    [stasUtxo]; everything else is the same. *)
Definition longerStasUtxo : Utxo :=
  {| utxo_txid := "aa"; utxo_vout := 0;
     utxo_script :=
       "h(owner-public)|h(issuer)|20|token-body-of-a-token-with-a-longer-symbol";
     utxo_satoshis := 10000 |}.

Definition paymentUtxo (sats : Z) : Utxo :=
  {| utxo_txid := "bb"; utxo_vout := 1;
     utxo_script := p2pkh (hash "payment-public");
     utxo_satoshis := sats |}.

Definition twoDestinations : list SplitDestination :=
  [ {| dest_address := "bob"; dest_satoshis := 3000 |};
    {| dest_address := "carol"; dest_satoshis := 4000 |} ].

End Demo.

(** ** What a build is expected to produce *)

Section Expected.

Variable E : Env.

Definition sum_satoshis (splitDestinations : list SplitDestination) : Z :=
  foldr Z.add 0 (map dest_satoshis splitDestinations).

Definition redeemOutput (stasUtxo : Utxo)
    (splitDestinations : list SplitDestination) : Output :=
  {| out_script :=
       buildP2pkhOutputScript E (getRedeemPublicKeyHash E (utxo_script stasUtxo));
     out_satoshis := utxo_satoshis stasUtxo - sum_satoshis splitDestinations |}.

Definition destinationOutput (stasUtxo : Utxo) (d : SplitDestination) : Output :=
  {| out_script :=
       updateStasScript E (addressToPKH E (dest_address d)) (utxo_script stasUtxo);
     out_satoshis := dest_satoshis d |}.

Definition changeOutput (paymentPublicKey : string) (p : Utxo) (txCost : Z) : Output :=
  {| out_script :=
       buildP2pkhOutputScript E (getPKHfromPublicKey E paymentPublicKey);
     out_satoshis := utxo_satoshis p - txCost |}.

Definition dataOutput (d : string) : Output :=
  {| out_script := "006a" +:+ formatDataToHexStringWithOpCodeConversion E d;
     out_satoshis := 0 |}.

(** The change output is there exactly when a payment UTXO was supplied and
    [isZeroChange] is false. *)
Definition changeOutputs (paymentPublicKey : string) (paymentUtxo : option Utxo)
    (isZeroChange : bool) (txCost : Z) : list Output :=
  match paymentUtxo with
  | Some p => if isZeroChange then [] else [changeOutput paymentPublicKey p txCost]
  | None => []
  end.

(** The data output is there exactly when the token is a STAS-20 token and a
    data payload was supplied. *)
Definition dataOutputs (stasUtxo : Utxo) (data : option string) : list Output :=
  match data with
  | Some d => if checkIfStas20 E (utxo_script stasUtxo) then [dataOutput d] else []
  | None => []
  end.

Definition expectedOutputs (stasUtxo : Utxo) (paymentPublicKey : string)
    (paymentUtxo : option Utxo) (splitDestinations : list SplitDestination)
    (data : option string) (isZeroChange : bool) (txCost : Z) : list Output :=
  redeemOutput stasUtxo splitDestinations
    :: map (destinationOutput stasUtxo) splitDestinations
    ++ changeOutputs paymentPublicKey paymentUtxo isZeroChange txCost
    ++ dataOutputs stasUtxo data.

(** The plan entry that describes an output paying [sats] to [pkh]. *)
Definition redeemEntry (stasUtxo : Utxo)
    (splitDestinations : list SplitDestination) : OutputData :=
  {| publicKeyHash := getRedeemPublicKeyHash E (utxo_script stasUtxo);
     od_satoshis := utxo_satoshis stasUtxo - sum_satoshis splitDestinations |}.

Definition destinationEntry (d : SplitDestination) : OutputData :=
  {| publicKeyHash := addressToPKH E (dest_address d);
     od_satoshis := dest_satoshis d |}.

Definition changeEntries (paymentPublicKey : string) (paymentUtxo : option Utxo)
    (isZeroChange : bool) (txCost : Z) : list OutputData :=
  match paymentUtxo with
  | Some p =>
      if isZeroChange then []
      else [ {| publicKeyHash := getPKHfromPublicKey E paymentPublicKey;
                od_satoshis := utxo_satoshis p - txCost |} ]
  | None => []
  end.

Definition expectedPlan (stasUtxo : Utxo) (paymentPublicKey : string)
    (paymentUtxo : option Utxo) (splitDestinations : list SplitDestination)
    (isZeroChange : bool) (txCost : Z) : list OutputData :=
  redeemEntry stasUtxo splitDestinations
    :: map destinationEntry splitDestinations
    ++ changeEntries paymentPublicKey paymentUtxo isZeroChange txCost.

(** The inputs before any signing: the token input, then the payment input
    when a payment UTXO was supplied. *)
Definition expectedInputs (stasUtxo : Utxo) (paymentUtxo : option Utxo) : list Input :=
  spending stasUtxo :: match paymentUtxo with Some p => [spending p] | None => [] end.

(** The value of [data] given to the unlocking-script builder. *)
Definition expectedData (stasUtxo : Utxo) (data : option string) : option string :=
  match data with
  | Some d =>
      if checkIfStas20 E (utxo_script stasUtxo)
      then Some (formatDataToHexStringWithOpCodeConversion E d)
      else Some d
  | None => None
  end.

(** The unlocking script of the token input: the unsigned fragment, then
    the signature and the public key when the owner key was supplied. *)
Definition tokenInputScript (ownerPublicKey : string) (stasUtxo : Utxo)
    (isZeroChange : bool) (ownerPrivateKey : option PrivateKey) (pl : Plan) : string :=
  let fragment :=
    buildUnlockingScriptUnsigned E (plan_tx pl) (plan_outputData pl)
      (plan_isStas20 pl) (plan_data pl) (plan_isZeroFee pl) isZeroChange in
  match ownerPrivateKey with
  | Some key =>
      fragment +:+ " " +:+
      Sighash_sign E (plan_tx pl) key (SIGHASH E) 0
        (utxo_script stasUtxo) (utxo_satoshis stasUtxo)
      +:+ " " +:+ ownerPublicKey
  | None => fragment
  end.

Definition tokenInput (ownerPublicKey : string) (stasUtxo : Utxo)
    (isZeroChange : bool) (ownerPrivateKey : option PrivateKey) (pl : Plan) : Input :=
  with_script
    (tokenInputScript ownerPublicKey stasUtxo isZeroChange ownerPrivateKey pl)
    (spending stasUtxo).

(** The payment input: signed over the transaction whose token input is
    already completed, or left with its empty script. *)
Definition paymentInput (ownerPublicKey paymentPublicKey : string)
    (stasUtxo p : Utxo) (isZeroChange : bool)
    (ownerPrivateKey paymentPrivateKey : option PrivateKey) (pl : Plan) : Input :=
  match paymentPrivateKey with
  | Some key =>
      with_script
        (Sighash_sign E
           {| inputs := [ tokenInput ownerPublicKey stasUtxo isZeroChange
                            ownerPrivateKey pl; spending p ];
              outputs := outputs (plan_tx pl) |}
           key (SIGHASH E) 1 (utxo_script p) (utxo_satoshis p)
         +:+ " " +:+ paymentPublicKey)
        (spending p)
  | None => spending p
  end.

Definition signedInputs (ownerPublicKey paymentPublicKey : string)
    (stasUtxo : Utxo) (paymentUtxo : option Utxo) (isZeroChange : bool)
    (ownerPrivateKey paymentPrivateKey : option PrivateKey) (pl : Plan) : list Input :=
  tokenInput ownerPublicKey stasUtxo isZeroChange ownerPrivateKey pl
    :: match paymentUtxo with
       | Some p => [ paymentInput ownerPublicKey paymentPublicKey stasUtxo p
                       isZeroChange ownerPrivateKey paymentPrivateKey pl ]
       | None => []
       end.

Definition tokenDescriptor (ownerPublicKey : string) (stasUtxo : Utxo) : UnsignedInput :=
  {| inputIndex := 0;
     ui_satoshis := utxo_satoshis stasUtxo;
     ui_script := utxo_script stasUtxo;
     ui_sighash := SIGHASH E;
     publicKeyString := ownerPublicKey;
     stas := true |}.

Definition paymentDescriptor (paymentPublicKey : string) (p : Utxo) : UnsignedInput :=
  {| inputIndex := 1;
     ui_satoshis := utxo_satoshis p;
     ui_script := utxo_script p;
     ui_sighash := SIGHASH E;
     publicKeyString := paymentPublicKey;
     stas := false |}.

(** One descriptor per input whose key was omitted, token input first. *)
Definition expectedUnsignedData (ownerPublicKey paymentPublicKey : string)
    (stasUtxo : Utxo) (paymentUtxo : option Utxo)
    (ownerPrivateKey paymentPrivateKey : option PrivateKey) : list UnsignedInput :=
  (if isUndefined ownerPrivateKey
   then [tokenDescriptor ownerPublicKey stasUtxo] else [])
  ++ match paymentUtxo with
     | Some p => if isUndefined paymentPrivateKey
                 then [paymentDescriptor paymentPublicKey p] else []
     | None => []
     end.

(** The last statement of unSignedFunc. *)
Definition finish (unsignedData : list UnsignedInput) (tx : Transaction) : BuildResult :=
  match unsignedData with
  | [] => ResTx tx
  | _ :: _ => ResUnsigned unsignedData tx
  end.

(** The checks of the loop body for one destination. *)
Definition destinationOk (stasUtxo : Utxo) (d : SplitDestination) : bool :=
  checkDestinationAddressCondition E
    (getRedeemPublicKeyHash E
       (updateStasScript E (addressToPKH E (dest_address d)) (utxo_script stasUtxo)))
    (addressToPKH E (dest_address d))
    (checkIfStas20 E (utxo_script stasUtxo))
  && outputAmountOk E (dest_satoshis d).

(** The checks met before the change output: the validation of the
    arguments, the amount of the redeem output, and every destination. *)
Definition planningChecksPass (ownerPublicKey : string) (stasUtxo : Utxo)
    (paymentPublicKey : string) (paymentUtxo : option Utxo)
    (splitDestinations : list SplitDestination) : bool :=
  validateRedeemSplitArgs E ownerPublicKey stasUtxo paymentPublicKey
    paymentUtxo splitDestinations
  && outputAmountOk E (utxo_satoshis stasUtxo - totalOutSats splitDestinations)
  && forallb (destinationOk stasUtxo) splitDestinations.

Definition hasChange (paymentUtxo : option Utxo) (isZeroChange : bool) : bool :=
  negb (isUndefined paymentUtxo) && negb isZeroChange.

Definition hasData (stasUtxo : Utxo) (data : option string) : bool :=
  checkIfStas20 E (utxo_script stasUtxo) && negb (isUndefined data).

Definition count (b : bool) : nat := if b then 1%nat else 0%nat.

End Expected.

(** ** The plan given to the unlocking-script builder *)

(** The output that a plan entry stands for: a pay-to-public-key-hash
    output (redeem and change outputs), or the token script bound to the
    entry's hash (destination outputs). *)
Definition payTo (E : Env) (od : OutputData) : Output :=
  {| out_script := buildP2pkhOutputScript E (publicKeyHash od);
     out_satoshis := od_satoshis od |}.

Definition tokenTo (E : Env) (stasUtxo : Utxo) (od : OutputData) : Output :=
  {| out_script := updateStasScript E (publicKeyHash od) (utxo_script stasUtxo);
     out_satoshis := od_satoshis od |}.

(** ** Fee estimation *)

(** The build that feeEstimate measures. *)
Definition measuredBuild (E : Env) (stasUtxo : Utxo)
    (splitDestinations : list SplitDestination) (data : option string)
    (isZeroChange : bool) : result BuildResult :=
  signedFunc E (Some (templatePrivateKey E)) stasUtxo
    (buildSplitDestinations E (length splitDestinations) (utxo_satoshis stasUtxo))
    (Some (paymentUtxoTemplate E)) (Some (templatePrivateKey E)) data
    isZeroChange 0 true.

(** ** Readings of the spec that the code does not follow *)

(** The reading of C4 that the spec gives: with a payment UTXO, change
    requested and no fee-estimation pass, a payment UTXO that cannot cover
    [txCost] plus the dust threshold makes the build fail. *)
Definition C4_as_stated (E : Env) (dust : Z) : Prop :=
  forall (ownerPublicKey : string) (stasUtxo : Utxo) (paymentPublicKey : string)
         (p : Utxo) (splitDestinations : list SplitDestination)
         (data : option string)
         (ownerPrivateKey paymentPrivateKey : option PrivateKey) (txCost : Z),
    utxo_satoshis p < txCost + dust ->
    is_ok (unSignedFunc E ownerPublicKey stasUtxo paymentPublicKey (Some p)
             splitDestinations data false ownerPrivateKey paymentPrivateKey
             txCost false) = false.

(** The reading of C6 that the spec gives: the plan has one entry per
    output of the transaction, in the same order and with the same amount,
    the data output included. *)
Definition C6_as_stated (E : Env) : Prop :=
  forall (ownerPublicKey : string) (stasUtxo : Utxo) (paymentPublicKey : string)
         (paymentUtxo : option Utxo) (splitDestinations : list SplitDestination)
         (data : option string) (isZeroChange : bool)
         (ownerPrivateKey paymentPrivateKey : option PrivateKey) (txCost : Z)
         (feeEstimateCall : bool) (pl : Plan) (r : BuildResult) (tx : Transaction),
    planOutputs E ownerPublicKey stasUtxo paymentPublicKey paymentUtxo
      splitDestinations data isZeroChange txCost feeEstimateCall = Ok pl ->
    unSignedFunc E ownerPublicKey stasUtxo paymentPublicKey paymentUtxo
      splitDestinations data isZeroChange ownerPrivateKey paymentPrivateKey
      txCost feeEstimateCall = Ok r ->
    result_tx r = Some tx ->
    Forall2 (fun od o => od_satoshis od = out_satoshis o)
      (plan_outputData pl) (outputs tx).

(** The reading of C7 that the spec gives: the measured build spends a
    template token UTXO, the same for every call. *)
Definition C7_as_stated (E : Env) : Prop :=
  exists templateTokenUtxo : Utxo,
    forall (stasUtxo : Utxo) (splitDestinations : list SplitDestination)
           (data : option string) (isZeroChange : bool),
      measuredBuild E stasUtxo splitDestinations data isZeroChange
      = signedFunc E (Some (templatePrivateKey E)) templateTokenUtxo
          (buildSplitDestinations E (length splitDestinations)
             (utxo_satoshis templateTokenUtxo))
          (Some (paymentUtxoTemplate E)) (Some (templatePrivateKey E)) data
          isZeroChange 0 true.

(** The reading of C8 that the spec gives: the fee depends on the
    destination count, on the presence of data and on the change flag
    only. *)
Definition C8_as_stated (E : Env) : Prop :=
  forall (stasUtxo1 stasUtxo2 : Utxo)
         (splitDestinations1 splitDestinations2 : list SplitDestination)
         (data1 data2 : option string) (isZeroChange : bool),
    length splitDestinations1 = length splitDestinations2 ->
    isUndefined data1 = isUndefined data2 ->
    feeEstimate E stasUtxo1 splitDestinations1 data1 isZeroChange
    = feeEstimate E stasUtxo2 splitDestinations2 data2 isZeroChange.

(** ** Sample builds *)

Module Samples.

Definition getResult (m : result BuildResult) : BuildResult :=
  match m with
  | Ok r => r
  | Err _ => ResHex ""
  end.

(** A fully signed build: token UTXO of 10000, destinations of 3000 and
    4000, a payment UTXO of 5000, change requested, a data payload. *)
Definition signedResult : BuildResult :=
  Eval vm_compute in
    getResult (signed (Demo.env 1) (Some Demo.ownerKey) Demo.stasUtxo
                 Demo.twoDestinations (Some (Demo.paymentUtxo 5000))
                 (Some Demo.paymentKey) (Some "cafe") false).

(** The same build with no private key at all. *)
Definition unsignedResult : BuildResult :=
  Eval vm_compute in
    getResult (unSignedFunc (Demo.env 1) "owner-public" Demo.stasUtxo
                 "payment-public" (Some (Demo.paymentUtxo 5000))
                 Demo.twoDestinations (Some "cafe") false None None 23 false).

End Samples.

(** ** Amounts, and the checks of a whole build *)

Definition sum_outputs (l : list Output) : Z :=
  foldr Z.add 0 (map out_satoshis l).

(** The amount an input brings: the amount of the output it spends. *)
Definition sum_inputs (l : list Input) : Z :=
  foldr Z.add 0 (map (fun i => out_satoshis (in_output i)) l).

(** The fee that a transaction pays: what its inputs bring minus what its
    outputs take. *)
Definition tx_fee (tx : Transaction) : Z :=
  sum_inputs (inputs tx) - sum_outputs (outputs tx).

(** An input without its unlocking script. *)
Definition unscripted (inp : Input) : Input := with_script "" inp.

(** Every check that unSignedFunc meets, in the order of the code: the
    checks of the planning up to the destinations, the amount of the change
    output when one is added, the zero-change check when it is run (it reads
    the payment UTXO), the amount of the data output when one is added. *)
Definition buildChecksPass (E : Env) (ownerPublicKey : string) (stasUtxo : Utxo)
    (paymentPublicKey : string) (paymentUtxo : option Utxo)
    (splitDestinations : list SplitDestination) (data : option string)
    (isZeroChange : bool) (txCost : Z) (feeEstimateCall : bool) : bool :=
  planningChecksPass E ownerPublicKey stasUtxo paymentPublicKey paymentUtxo
    splitDestinations
  && match paymentUtxo with
     | Some p => isZeroChange || outputAmountOk E (utxo_satoshis p - txCost)
     | None => true
     end
  && (if isZeroChange && negb feeEstimateCall
      then match paymentUtxo with
           | Some p => checkZeroChangeThreshold E (utxo_satoshis p) txCost
                         "RedeemSplit Function Zero Change"
           | None => false
           end
      else true)
  && (if hasData E stasUtxo data then outputAmountOk E 0 else true).

(** ** The monad *)

Lemma bind_Ok_inv {A B} (m : result A) (k : A -> result B) (b : B) :
  bind m k = Ok b -> exists a, m = Ok a /\ k a = Ok b.
Proof. destruct m as [a|e]; simpl; [eauto | discriminate]. Qed.

Lemma check_Ok_inv (b : bool) (e : error) (u : unit) :
  check b e = Ok u -> b = true.
Proof. destruct b; [reflexivity | discriminate]. Qed.

Lemma deref_Ok_inv {A} (what : string) (o : option A) (a : A) :
  deref what o = Ok a -> o = Some a.
Proof. destruct o; simpl; congruence. Qed.

(** Splits a hypothesis [H : bind m k = Ok b] into [Hm : m = Ok a] and
    [H : k a = Ok b]. *)
Tactic Notation "bind_inv" hyp(H) "as" simple_intropattern(a) ident(Hm) :=
  apply bind_Ok_inv in H as (a & Hm & H).

(** ** Output planning *)

Section PlanFacts.

Variable E : Env.

Lemma fold_left_add_satoshis (l : list SplitDestination) (a : Z) :
  fold_left (fun a b => a + dest_satoshis b) l a = a + sum_satoshis l.
Proof.
  revert a. induction l as [|d l IH]; intros a; simpl.
  - unfold sum_satoshis. simpl. lia.
  - rewrite IH. unfold sum_satoshis. simpl. lia.
Qed.

Lemma totalOutSats_sum (l : list SplitDestination) :
  totalOutSats l = sum_satoshis l.
Proof. unfold totalOutSats. rewrite fold_left_add_satoshis. lia. Qed.

Lemma Output_new_Ok_inv (script : string) (sats : Z) (o : Output) :
  Output_new E script sats = Ok o ->
  o = {| out_script := script; out_satoshis := sats |} /\ outputAmountOk E sats = true.
Proof.
  unfold Output_new. intros H. bind_inv H as [] Hchk.
  apply check_Ok_inv in Hchk. split; congruence.
Qed.

Lemma addDestinations_Ok_inv (stasUtxo : Utxo) (isStas20 : bool)
    (dests : list SplitDestination) (tx tx' : Transaction)
    (od od' : list OutputData) :
  addDestinations E (utxo_script stasUtxo) isStas20 dests (tx, od) = Ok (tx', od') ->
  inputs tx' = inputs tx
  /\ outputs tx' = outputs tx ++ map (destinationOutput E stasUtxo) dests
  /\ od' = od ++ map (destinationEntry E) dests.
Proof.
  revert tx od. induction dests as [|d dests IH]; intros tx od H; simpl in H.
  - injection H as <- <-. simpl. by rewrite !app_nil_r.
  - bind_inv H as [tx1 od1] Hstep. unfold addDestination in Hstep.
    bind_inv Hstep as [] Hchk. bind_inv Hstep as o Ho.
    apply Output_new_Ok_inv in Ho as [-> _].
    injection Hstep as <- <-.
    apply IH in H as (Hi & Ho & Hd). simpl in *.
    rewrite Hi, Ho, Hd, <- !app_assoc. done.
Qed.

Lemma planOutputs_Ok_inv (ownerPublicKey : string) (stasUtxo : Utxo)
    (paymentPublicKey : string) (paymentUtxo : option Utxo)
    (splitDestinations : list SplitDestination) (data : option string)
    (isZeroChange : bool) (txCost : Z) (feeEstimateCall : bool) (pl : Plan) :
  planOutputs E ownerPublicKey stasUtxo paymentPublicKey paymentUtxo
    splitDestinations data isZeroChange txCost feeEstimateCall = Ok pl ->
  inputs (plan_tx pl) = expectedInputs stasUtxo paymentUtxo
  /\ outputs (plan_tx pl) =
       expectedOutputs E stasUtxo paymentPublicKey paymentUtxo splitDestinations
         data isZeroChange txCost
  /\ plan_outputData pl =
       expectedPlan E stasUtxo paymentPublicKey paymentUtxo splitDestinations
         isZeroChange txCost
  /\ plan_data pl = expectedData E stasUtxo data
  /\ plan_isStas20 pl = checkIfStas20 E (utxo_script stasUtxo)
  /\ plan_isZeroFee pl = isUndefined paymentUtxo.
Proof.
  unfold planOutputs. intros H.
  bind_inv H as [] Hval.
  bind_inv H as tx0 Hm.
  bind_inv H as o Hro. apply Output_new_Ok_inv in Hro as [-> _].
  bind_inv H as [tx1 od1] Hdests.
  apply addDestinations_Ok_inv in Hdests as (Hi1 & Ho1 & Hd1).
  bind_inv H as [tx2 od2] Hm0.
  bind_inv H as [] Hzc.
  bind_inv H as [tx3 data3] Hm2.
  injection H as <-. simpl.
  unfold expectedOutputs, expectedPlan, redeemOutput, redeemEntry.
  rewrite <- totalOutSats_sum.
  simpl in Hi1, Ho1, Hd1.
  assert (Hin : inputs tx0 = expectedInputs stasUtxo paymentUtxo
                /\ outputs tx0 = []).
  { destruct paymentUtxo as [p|]; simpl in Hm; injection Hm as <-; done. }
  destruct Hin as [Hin Hout].
  assert (H2 : inputs tx2 = inputs tx1
               /\ outputs tx2 = outputs tx1 ++
                    changeOutputs E paymentPublicKey paymentUtxo isZeroChange txCost
               /\ od2 = od1 ++
                    changeEntries E paymentPublicKey paymentUtxo isZeroChange txCost).
  { unfold changeOutputs, changeEntries.
    destruct paymentUtxo as [p|], isZeroChange; simpl in Hm0;
      try (injection Hm0 as <- <-; by rewrite !app_nil_r).
    bind_inv Hm0 as o Hco. apply Output_new_Ok_inv in Hco as [-> _].
    bind_inv Hm0 as lastOutput Hlast. simpl in Hlast.
    rewrite last_snoc in Hlast. simpl in Hlast.
    injection Hlast as <-. injection Hm0 as <- <-. done. }
  destruct H2 as (Hi2 & Ho2 & Hd2).
  assert (H3 : inputs tx3 = inputs tx2
               /\ outputs tx3 = outputs tx2 ++ dataOutputs E stasUtxo data
               /\ data3 = expectedData E stasUtxo data).
  { unfold dataOutputs, expectedData.
    destruct (checkIfStas20 E (utxo_script stasUtxo)), data as [d|];
      simpl in Hm2; try (injection Hm2 as <- <-; by rewrite ?app_nil_r).
    bind_inv Hm2 as o Hdo. apply Output_new_Ok_inv in Hdo as [-> _].
    injection Hm2 as <- <-. done. }
  destruct H3 as (Hi3 & Ho3 & Hd3).
  repeat split.
  - congruence.
  - rewrite Ho3, Ho2, Ho1, Hout. simpl. by rewrite <- !app_assoc.
  - rewrite Hd2, Hd1. simpl. done.
  - done.
Qed.

End PlanFacts.

(** ** Signing coordination *)

Section SignFacts.

Variable E : Env.

(** Once the outputs are planned the signing part cannot fail. *)
Lemma signInputs_eq (ownerPublicKey paymentPublicKey : string)
    (stasUtxo : Utxo) (paymentUtxo : option Utxo) (isZeroChange : bool)
    (ownerPrivateKey paymentPrivateKey : option PrivateKey) (pl : Plan) :
  inputs (plan_tx pl) = expectedInputs stasUtxo paymentUtxo ->
  plan_isZeroFee pl = isUndefined paymentUtxo ->
  signInputs E ownerPublicKey paymentPublicKey isZeroChange
    ownerPrivateKey paymentPrivateKey pl
  = Ok (finish
          (expectedUnsignedData E ownerPublicKey paymentPublicKey stasUtxo
             paymentUtxo ownerPrivateKey paymentPrivateKey)
          {| inputs := signedInputs E ownerPublicKey paymentPublicKey stasUtxo
                         paymentUtxo isZeroChange ownerPrivateKey
                         paymentPrivateKey pl;
             outputs := outputs (plan_tx pl) |}).
Proof.
  destruct pl as [[ins outs] od d s20 zf]. simpl. intros -> ->.
  unfold signInputs, signedInputs, paymentInput, tokenInput, tokenInputScript,
    expectedUnsignedData.
  destruct paymentUtxo as [p|], ownerPrivateKey as [ok|],
    paymentPrivateKey as [pk|]; reflexivity.
Qed.

End SignFacts.

(** ** The functions of the module *)

Section BuildFacts.

Variable E : Env.

(** A successful build has planned its outputs, and its result is the
    finished form of the completed transaction. *)
Lemma unSignedFunc_Ok_inv (ownerPublicKey : string) (stasUtxo : Utxo)
    (paymentPublicKey : string) (paymentUtxo : option Utxo)
    (splitDestinations : list SplitDestination) (data : option string)
    (isZeroChange : bool) (ownerPrivateKey paymentPrivateKey : option PrivateKey)
    (txCost : Z) (feeEstimateCall : bool) (r : BuildResult) :
  unSignedFunc E ownerPublicKey stasUtxo paymentPublicKey paymentUtxo
    splitDestinations data isZeroChange ownerPrivateKey paymentPrivateKey
    txCost feeEstimateCall = Ok r ->
  exists pl,
    planOutputs E ownerPublicKey stasUtxo paymentPublicKey paymentUtxo
      splitDestinations data isZeroChange txCost feeEstimateCall = Ok pl
    /\ r = finish
             (expectedUnsignedData E ownerPublicKey paymentPublicKey stasUtxo
                paymentUtxo ownerPrivateKey paymentPrivateKey)
             {| inputs := signedInputs E ownerPublicKey paymentPublicKey stasUtxo
                            paymentUtxo isZeroChange ownerPrivateKey
                            paymentPrivateKey pl;
                outputs := expectedOutputs E stasUtxo paymentPublicKey paymentUtxo
                             splitDestinations data isZeroChange txCost |}.
Proof.
  unfold unSignedFunc. intros H. bind_inv H as pl Hpl.
  exists pl. split; [done|].
  destruct (planOutputs_Ok_inv E _ _ _ _ _ _ _ _ _ _ Hpl)
    as (Hin & Hout & _ & _ & _ & Hzf).
  rewrite (signInputs_eq E _ _ stasUtxo paymentUtxo) in H by done.
  rewrite Hout in H. congruence.
Qed.

(** The result of a build always holds a transaction. *)
Lemma result_tx_finish (ud : list UnsignedInput) (tx : Transaction) :
  result_tx (finish ud tx) = Some tx.
Proof. by destruct ud. Qed.

(** The two public builders are calls of unSignedFunc with the estimated
    fee as [txCost] and [feeEstimateCall = false]. *)
Lemma signed_Ok_inv (ownerPrivateKey : option PrivateKey) (stasUtxo : Utxo)
    (splitDestinations : list SplitDestination) (paymentUtxo : option Utxo)
    (paymentPrivateKey : option PrivateKey) (data : option string)
    (isZeroChange : bool) (r : BuildResult) :
  signed E ownerPrivateKey stasUtxo splitDestinations paymentUtxo
    paymentPrivateKey data isZeroChange = Ok r ->
  exists ownerKey paymentKey txCost,
    ownerPrivateKey = Some ownerKey /\ paymentPrivateKey = Some paymentKey
    /\ feeEstimate E stasUtxo splitDestinations data isZeroChange = Ok txCost
    /\ unSignedFunc E (publicKey ownerKey) stasUtxo (publicKey paymentKey)
         paymentUtxo splitDestinations data isZeroChange
         (Some ownerKey) (Some paymentKey) txCost false = Ok r.
Proof.
  unfold signed, signedFunc. intros H.
  bind_inv H as txCost Hfee. bind_inv H as ownerKey Hok.
  bind_inv H as paymentKey Hpk.
  apply deref_Ok_inv in Hok as ->. apply deref_Ok_inv in Hpk as ->.
  by exists ownerKey, paymentKey, txCost.
Qed.

Lemma unSigned_Ok_inv (ownerPublicKey : string) (stasUtxo : Utxo)
    (paymentPublicKey : string) (paymentUtxo : option Utxo)
    (splitDestinations : list SplitDestination) (data : option string)
    (isZeroChange : bool) (r : BuildResult) :
  unSigned E ownerPublicKey stasUtxo paymentPublicKey paymentUtxo
    splitDestinations data isZeroChange = Ok r ->
  exists txCost,
    feeEstimate E stasUtxo splitDestinations data isZeroChange = Ok txCost
    /\ unSignedFunc E ownerPublicKey stasUtxo paymentPublicKey paymentUtxo
         splitDestinations data isZeroChange None None txCost false = Ok r.
Proof.
  unfold unSigned. intros H. bind_inv H as txCost Hfee. by exists txCost.
Qed.

End BuildFacts.

(** ** When the planning succeeds *)

Section PlanningSucceeds.

Variable E : Env.

Lemma addDestinations_pass (stasUtxo : Utxo) (dests : list SplitDestination)
    (tx : Transaction) (od : list OutputData) :
  forallb (destinationOk E stasUtxo) dests = true ->
  addDestinations E (utxo_script stasUtxo) (checkIfStas20 E (utxo_script stasUtxo))
    dests (tx, od)
  = Ok ({| inputs := inputs tx;
           outputs := outputs tx ++ map (destinationOutput E stasUtxo) dests |},
        od ++ map (destinationEntry E) dests).
Proof.
  revert tx od. induction dests as [|d dests IH]; intros tx od H; simpl.
  - rewrite !app_nil_r. by destruct tx.
  - simpl in H. apply andb_prop in H as [Hd Hrest].
    unfold destinationOk in Hd. apply andb_prop in Hd as [Hc Ha].
    unfold Output_new. rewrite Hc, Ha. simpl.
    rewrite IH by done. simpl. by rewrite <- !app_assoc.
Qed.

(** A successful planning has passed the zero-change check whenever the
    code runs it, and a payment UTXO was there to be read. *)
Lemma planOutputs_Ok_zero_change (ownerPublicKey : string) (stasUtxo : Utxo)
    (paymentPublicKey : string) (paymentUtxo : option Utxo)
    (splitDestinations : list SplitDestination) (data : option string)
    (txCost : Z) (pl : Plan) :
  planOutputs E ownerPublicKey stasUtxo paymentPublicKey paymentUtxo
    splitDestinations data true txCost false = Ok pl ->
  exists p, paymentUtxo = Some p
    /\ checkZeroChangeThreshold E (utxo_satoshis p) txCost
         "RedeemSplit Function Zero Change" = true.
Proof.
  unfold planOutputs. intros H.
  bind_inv H as [] Hval.
  bind_inv H as tx0 Hm.
  bind_inv H as o Hro.
  bind_inv H as [tx1 od1] Hdests.
  bind_inv H as [tx2 od2] Hm0.
  bind_inv H as [] Hzc.
  simpl in Hzc. bind_inv Hzc as p Hp.
  apply deref_Ok_inv in Hp. apply check_Ok_inv in Hzc. eauto.
Qed.

(** The outcome of the planning once the first checks pass, for a build
    with [isZeroChange = true] that is not a fee-estimation call. *)
Lemma planOutputs_zero_change_outcome (ownerPublicKey : string) (stasUtxo : Utxo)
    (paymentPublicKey : string) (paymentUtxo : option Utxo)
    (splitDestinations : list SplitDestination) (data : option string)
    (txCost : Z) :
  planningChecksPass E ownerPublicKey stasUtxo paymentPublicKey paymentUtxo
    splitDestinations = true ->
  match paymentUtxo with
  | None =>
      planOutputs E ownerPublicKey stasUtxo paymentPublicKey paymentUtxo
        splitDestinations data true txCost false
      = Err (TypeError "paymentUtxo")
  | Some p =>
      checkZeroChangeThreshold E (utxo_satoshis p) txCost
        "RedeemSplit Function Zero Change" = false ->
      planOutputs E ownerPublicKey stasUtxo paymentPublicKey paymentUtxo
        splitDestinations data true txCost false
      = Err (ZeroChangeError "RedeemSplit Function Zero Change")
  end.
Proof.
  unfold planningChecksPass. intros H.
  apply andb_prop in H as [H Hd]. apply andb_prop in H as [Hv Ha].
  unfold planOutputs, Output_new. rewrite Hv, Ha.
  destruct paymentUtxo as [p|]; simpl.
  - intros Hc. rewrite addDestinations_pass by done. simpl. by rewrite Hc.
  - by rewrite addDestinations_pass by done.
Qed.

(** The planning succeeds as soon as every check it meets passes. *)
Lemma planOutputs_pass (ownerPublicKey : string) (stasUtxo : Utxo)
    (paymentPublicKey : string) (paymentUtxo : option Utxo)
    (splitDestinations : list SplitDestination) (data : option string)
    (isZeroChange : bool) (txCost : Z) (feeEstimateCall : bool) :
  planningChecksPass E ownerPublicKey stasUtxo paymentPublicKey paymentUtxo
    splitDestinations = true ->
  (forall p, paymentUtxo = Some p -> isZeroChange = false ->
     outputAmountOk E (utxo_satoshis p - txCost) = true) ->
  (isZeroChange = true -> feeEstimateCall = false ->
     exists p, paymentUtxo = Some p
       /\ checkZeroChangeThreshold E (utxo_satoshis p) txCost
            "RedeemSplit Function Zero Change" = true) ->
  outputAmountOk E 0 = true ->
  is_ok (planOutputs E ownerPublicKey stasUtxo paymentPublicKey paymentUtxo
           splitDestinations data isZeroChange txCost feeEstimateCall) = true.
Proof.
  unfold planningChecksPass. intros H Hchange Hzc Hzero.
  apply andb_prop in H as [H Hd]. apply andb_prop in H as [Hv Ha].
  unfold planOutputs, Output_new. rewrite Hv, Ha.
  destruct paymentUtxo as [p|]; simpl;
    rewrite addDestinations_pass by done; simpl.
  - destruct isZeroChange; simpl.
    + destruct feeEstimateCall; simpl.
      * destruct (checkIfStas20 E (utxo_script stasUtxo)), data;
          simpl; rewrite ?Hzero; done.
      * destruct Hzc as (p' & [= <-] & ->); [done..|]. simpl.
        destruct (checkIfStas20 E (utxo_script stasUtxo)), data;
          simpl; rewrite ?Hzero; done.
    + rewrite (Hchange p) by done. simpl.
      rewrite app_comm_cons, last_snoc. simpl.
      destruct (checkIfStas20 E (utxo_script stasUtxo)), data;
        simpl; rewrite ?Hzero; done.
  - destruct isZeroChange; simpl.
    + destruct feeEstimateCall; simpl.
      * destruct (checkIfStas20 E (utxo_script stasUtxo)), data;
          simpl; rewrite ?Hzero; done.
      * destruct Hzc as (p' & [=] & _); done.
    + destruct (checkIfStas20 E (utxo_script stasUtxo)), data;
        simpl; rewrite ?Hzero; done.
Qed.

(** A build succeeds exactly when its planning does. *)
Lemma unSignedFunc_is_ok (ownerPublicKey : string) (stasUtxo : Utxo)
    (paymentPublicKey : string) (paymentUtxo : option Utxo)
    (splitDestinations : list SplitDestination) (data : option string)
    (isZeroChange : bool) (ownerPrivateKey paymentPrivateKey : option PrivateKey)
    (txCost : Z) (feeEstimateCall : bool) :
  is_ok (unSignedFunc E ownerPublicKey stasUtxo paymentPublicKey paymentUtxo
           splitDestinations data isZeroChange ownerPrivateKey
           paymentPrivateKey txCost feeEstimateCall)
  = is_ok (planOutputs E ownerPublicKey stasUtxo paymentPublicKey paymentUtxo
             splitDestinations data isZeroChange txCost feeEstimateCall).
Proof.
  unfold unSignedFunc.
  destruct (planOutputs E ownerPublicKey stasUtxo paymentPublicKey paymentUtxo
              splitDestinations data isZeroChange txCost feeEstimateCall)
    as [pl|e] eqn:Hpl; simpl; [|done].
  destruct (planOutputs_Ok_inv E _ _ _ _ _ _ _ _ _ _ Hpl)
    as (Hin & _ & _ & _ & _ & Hzf).
  by rewrite (signInputs_eq E _ _ stasUtxo paymentUtxo).
Qed.

(** The zero-change check is the only place where a build looks at
    [checkZeroChangeThreshold]: when the code does not run it, the build is
    the same whatever that checker is. *)
Lemma unSignedFunc_check_not_run (chk : Z -> Z -> string -> bool)
    (ownerPublicKey : string) (stasUtxo : Utxo)
    (paymentPublicKey : string) (paymentUtxo : option Utxo)
    (splitDestinations : list SplitDestination) (data : option string)
    (isZeroChange : bool) (ownerPrivateKey paymentPrivateKey : option PrivateKey)
    (txCost : Z) (feeEstimateCall : bool) :
  isZeroChange && negb feeEstimateCall = false ->
  unSignedFunc (with_checkZeroChangeThreshold E chk) ownerPublicKey stasUtxo
    paymentPublicKey paymentUtxo splitDestinations data isZeroChange
    ownerPrivateKey paymentPrivateKey txCost feeEstimateCall
  = unSignedFunc E ownerPublicKey stasUtxo paymentPublicKey paymentUtxo
      splitDestinations data isZeroChange ownerPrivateKey paymentPrivateKey
      txCost feeEstimateCall.
Proof.
  intros H. unfold unSignedFunc, planOutputs. rewrite H. reflexivity.
Qed.

(** A successful planning with a payment UTXO and change requested has had
    the amount of the change output accepted. *)
Lemma planOutputs_Ok_change_amount (ownerPublicKey : string) (stasUtxo : Utxo)
    (paymentPublicKey : string) (p : Utxo)
    (splitDestinations : list SplitDestination) (data : option string)
    (txCost : Z) (feeEstimateCall : bool) (pl : Plan) :
  planOutputs E ownerPublicKey stasUtxo paymentPublicKey (Some p)
    splitDestinations data false txCost feeEstimateCall = Ok pl ->
  outputAmountOk E (utxo_satoshis p - txCost) = true.
Proof.
  unfold planOutputs. intros H.
  bind_inv H as [] Hval.
  bind_inv H as tx0 Hm.
  bind_inv H as o Hro.
  bind_inv H as [tx1 od1] Hdests.
  bind_inv H as [tx2 od2] Hm0.
  simpl in Hm0. bind_inv Hm0 as co Hco.
  by apply Output_new_Ok_inv in Hco as [_ Hok].
Qed.

(** The outcome of the planning once the first checks pass, when the
    amount of the change output is refused. *)
Lemma planOutputs_change_refused (ownerPublicKey : string) (stasUtxo : Utxo)
    (paymentPublicKey : string) (p : Utxo)
    (splitDestinations : list SplitDestination) (data : option string)
    (txCost : Z) (feeEstimateCall : bool) :
  planningChecksPass E ownerPublicKey stasUtxo paymentPublicKey (Some p)
    splitDestinations = true ->
  outputAmountOk E (utxo_satoshis p - txCost) = false ->
  planOutputs E ownerPublicKey stasUtxo paymentPublicKey (Some p)
    splitDestinations data false txCost feeEstimateCall
  = Err OutputAmountError.
Proof.
  unfold planningChecksPass. intros H Hc.
  apply andb_prop in H as [H Hd]. apply andb_prop in H as [Hv Ha].
  unfold planOutputs, Output_new. rewrite Hv, Ha. simpl.
  rewrite addDestinations_pass by done. simpl. by rewrite Hc.
Qed.

End PlanningSucceeds.

(** ** Fee estimation *)

Lemma feeEstimate_measuredBuild (E : Env) (stasUtxo : Utxo)
    (splitDestinations : list SplitDestination) (data : option string)
    (isZeroChange : bool) :
  feeEstimate E stasUtxo splitDestinations data isZeroChange
  = let* r := measuredBuild E stasUtxo splitDestinations data isZeroChange in
    let* measured := Transaction_of E r in
    Ok (estimateFee E (SATS E) measured).
Proof. reflexivity. Qed.

(** A build with both keys supplied returns the transaction object. *)
Lemma signedFunc_Ok_inv (E : Env) (ownerKey paymentKey : PrivateKey)
    (stasUtxo : Utxo) (splitDestinations : list SplitDestination)
    (paymentUtxo : option Utxo) (data : option string) (isZeroChange : bool)
    (txCost : Z) (feeEstimateCall : bool) (r : BuildResult) :
  signedFunc E (Some ownerKey) stasUtxo splitDestinations paymentUtxo
    (Some paymentKey) data isZeroChange txCost feeEstimateCall = Ok r ->
  exists pl,
    planOutputs E (publicKey ownerKey) stasUtxo (publicKey paymentKey)
      paymentUtxo splitDestinations data isZeroChange txCost feeEstimateCall
    = Ok pl
    /\ r = ResTx
             {| inputs := signedInputs E (publicKey ownerKey)
                            (publicKey paymentKey) stasUtxo paymentUtxo
                            isZeroChange (Some ownerKey) (Some paymentKey) pl;
                outputs := expectedOutputs E stasUtxo (publicKey paymentKey)
                             paymentUtxo splitDestinations data isZeroChange
                             txCost |}.
Proof.
  unfold signedFunc. simpl. intros H.
  apply unSignedFunc_Ok_inv in H as (pl & Hpl & ->).
  exists pl. split; [done|].
  unfold expectedUnsignedData. by destruct paymentUtxo.
Qed.

(** ** Properties of the builder *)

Lemma append_space_nonempty (s t : string) : s +:+ " " +:+ t <> "".
Proof. destruct s; discriminate. Qed.

(** C1. For every successful build, through either public builder or
    through unSignedFunc itself, output 0 of the transaction is the redeem
    output: its amount is the token UTXO's amount minus the sum of the
    amounts of the split destinations, and its locking script is the
    pay-to-public-key-hash script of the redemption public-key hash read
    from the token UTXO's locking script. *)
Theorem C1_redeem_output (E : Env)
    (ownerPrivateKey paymentPrivateKey : option PrivateKey)
    (ownerPublicKey paymentPublicKey : string) (stasUtxo : Utxo)
    (paymentUtxo : option Utxo) (splitDestinations : list SplitDestination)
    (data : option string) (isZeroChange : bool) (txCost : Z)
    (feeEstimateCall : bool) (r : BuildResult) :
  signed E ownerPrivateKey stasUtxo splitDestinations paymentUtxo
    paymentPrivateKey data isZeroChange = Ok r
  \/ unSigned E ownerPublicKey stasUtxo paymentPublicKey paymentUtxo
       splitDestinations data isZeroChange = Ok r
  \/ unSignedFunc E ownerPublicKey stasUtxo paymentPublicKey paymentUtxo
       splitDestinations data isZeroChange ownerPrivateKey paymentPrivateKey
       txCost feeEstimateCall = Ok r ->
  exists tx,
    result_tx r = Some tx
    /\ outputs tx !! 0%nat =
         Some {| out_script :=
                   buildP2pkhOutputScript E
                     (getRedeemPublicKeyHash E (utxo_script stasUtxo));
                 out_satoshis :=
                   utxo_satoshis stasUtxo - sum_satoshis splitDestinations |}.
Proof.
  intros [H | [H | H]].
  - apply signed_Ok_inv in H as (ok & pk & c & _ & _ & _ & H).
    apply unSignedFunc_Ok_inv in H as (pl & _ & ->).
    eexists. by rewrite result_tx_finish.
  - apply unSigned_Ok_inv in H as (c & _ & H).
    apply unSignedFunc_Ok_inv in H as (pl & _ & ->).
    eexists. by rewrite result_tx_finish.
  - apply unSignedFunc_Ok_inv in H as (pl & _ & ->).
    eexists. by rewrite result_tx_finish.
Qed.

Lemma C1_redeem_output_witness :
  exists tx,
    result_tx Samples.signedResult = Some tx
    /\ outputs tx !! 0%nat =
         Some {| out_script := "76a914h(issuer)88ac"; out_satoshis := 3000 |}.
Proof.
  apply (C1_redeem_output (Demo.env 1) (Some Demo.ownerKey)
           (Some Demo.paymentKey) "" "" Demo.stasUtxo
           (Some (Demo.paymentUtxo 5000)) Demo.twoDestinations (Some "cafe")
           false 0 false Samples.signedResult).
  left. vm_compute. reflexivity.
Defined.

Lemma length_changeOutputs (E : Env) (paymentPublicKey : string)
    (paymentUtxo : option Utxo) (isZeroChange : bool) (txCost : Z) :
  length (changeOutputs E paymentPublicKey paymentUtxo isZeroChange txCost)
  = count (hasChange paymentUtxo isZeroChange).
Proof. by destruct paymentUtxo, isZeroChange. Qed.

Lemma length_dataOutputs (E : Env) (stasUtxo : Utxo) (data : option string) :
  length (dataOutputs E stasUtxo data) = count (hasData E stasUtxo data).
Proof.
  unfold dataOutputs, hasData.
  by destruct data, (checkIfStas20 E (utxo_script stasUtxo)).
Qed.

(** C2. For every successful build the output list is, in this order: the
    redeem output; one re-templated token output per split destination, in
    the order of the destinations and with the destination's amount; a
    change output exactly when a payment UTXO was supplied and isZeroChange
    is false; a zero-value data output exactly when the token is a STAS-20
    token and a data payload was supplied.  The number of outputs is
    1 + |destinations| + (1 if change) + (1 if data).  Every build is a call
    of unSignedFunc: the public builders reach it with the estimated fee as
    [txCost] (signed_Ok_inv, unSigned_Ok_inv). *)
Theorem C2_output_order_and_count (E : Env)
    (ownerPublicKey : string) (stasUtxo : Utxo) (paymentPublicKey : string)
    (paymentUtxo : option Utxo) (splitDestinations : list SplitDestination)
    (data : option string) (isZeroChange : bool)
    (ownerPrivateKey paymentPrivateKey : option PrivateKey) (txCost : Z)
    (feeEstimateCall : bool) (r : BuildResult) :
  unSignedFunc E ownerPublicKey stasUtxo paymentPublicKey paymentUtxo
    splitDestinations data isZeroChange ownerPrivateKey paymentPrivateKey
    txCost feeEstimateCall = Ok r ->
  exists tx,
    result_tx r = Some tx
    /\ outputs tx =
         [redeemOutput E stasUtxo splitDestinations]
         ++ map (destinationOutput E stasUtxo) splitDestinations
         ++ changeOutputs E paymentPublicKey paymentUtxo isZeroChange txCost
         ++ dataOutputs E stasUtxo data
    /\ length (changeOutputs E paymentPublicKey paymentUtxo isZeroChange txCost)
       = count (hasChange paymentUtxo isZeroChange)
    /\ length (dataOutputs E stasUtxo data) = count (hasData E stasUtxo data)
    /\ Forall (fun o => out_satoshis o = 0) (dataOutputs E stasUtxo data)
    /\ length (outputs tx) =
         (1 + length splitDestinations
          + count (hasChange paymentUtxo isZeroChange)
          + count (hasData E stasUtxo data))%nat.
Proof.
  intros H. apply unSignedFunc_Ok_inv in H as (pl & _ & ->).
  eexists. rewrite result_tx_finish. split; [reflexivity|].
  split; [reflexivity|].
  split; [apply length_changeOutputs|].
  split; [apply length_dataOutputs|].
  split.
  - unfold dataOutputs.
    destruct data, (checkIfStas20 E (utxo_script stasUtxo));
      repeat constructor.
  - simpl. unfold expectedOutputs. simpl.
    rewrite !length_app, length_map, length_changeOutputs, length_dataOutputs.
    lia.
Qed.

Lemma C2_output_order_and_count_witness :
  exists tx,
    result_tx Samples.signedResult = Some tx
    /\ outputs tx =
         [ {| out_script := "76a914h(issuer)88ac"; out_satoshis := 3000 |};
           {| out_script := "h(bob)|h(issuer)|20|token-body";
              out_satoshis := 3000 |};
           {| out_script := "h(carol)|h(issuer)|20|token-body";
              out_satoshis := 4000 |};
           {| out_script := "76a914h(payment-public)88ac";
              out_satoshis := 4977 |};
           {| out_script := "006acafe"; out_satoshis := 0 |} ]
    /\ length (outputs tx) = 5%nat.
Proof.
  destruct (C2_output_order_and_count (Demo.env 1) "owner-public"
              Demo.stasUtxo "payment-public" (Some (Demo.paymentUtxo 5000))
              Demo.twoDestinations (Some "cafe") false (Some Demo.ownerKey)
              (Some Demo.paymentKey) 23 false Samples.signedResult)
    as (tx & Htx & Hout & _ & _ & _ & Hlen).
  - vm_compute. reflexivity.
  - exists tx. split; [exact Htx|]. split; [exact Hout | exact Hlen].
Defined.

(** C3. The transaction of a successful build has the token input, which
    spends the token UTXO, followed by the payment input when a payment UTXO
    was supplied.  When both private keys are supplied the build returns
    that transaction alone, with no unsignedData, and every one of these
    inputs has a non-empty unlocking script.  When the key of an input is
    omitted the build returns the object [{ unsignedData, tx }] and
    unsignedData holds exactly one descriptor for that input: its index (0
    for the token input, 1 for the payment input), the amount and locking
    script of the output it spends, the signature-hash mode and the
    associated public key; the flag [stas] of a descriptor is true exactly
    for the token input. *)
Theorem C3_signed_or_descriptors (E : Env)
    (ownerPublicKey : string) (stasUtxo : Utxo) (paymentPublicKey : string)
    (paymentUtxo : option Utxo) (splitDestinations : list SplitDestination)
    (data : option string) (isZeroChange : bool)
    (ownerPrivateKey paymentPrivateKey : option PrivateKey) (txCost : Z)
    (feeEstimateCall : bool) (r : BuildResult) :
  unSignedFunc E ownerPublicKey stasUtxo paymentPublicKey paymentUtxo
    splitDestinations data isZeroChange ownerPrivateKey paymentPrivateKey
    txCost feeEstimateCall = Ok r ->
  exists tx,
    result_tx r = Some tx
    /\ map unscripted (inputs tx) =
         spending stasUtxo
           :: match paymentUtxo with Some p => [spending p] | None => [] end
    /\ (is_Some ownerPrivateKey -> is_Some paymentPrivateKey ->
        r = ResTx tx
        /\ result_unsignedData r = None
        /\ Forall (fun i => in_script i <> "") (inputs tx))
    /\ (ownerPrivateKey = None ->
        exists ud, r = ResUnsigned ud tx
          /\ filter (fun d => inputIndex d = 0%nat) ud =
               [ {| inputIndex := 0;
                    ui_satoshis := utxo_satoshis stasUtxo;
                    ui_script := utxo_script stasUtxo;
                    ui_sighash := SIGHASH E;
                    publicKeyString := ownerPublicKey;
                    stas := true |} ])
    /\ (forall p, paymentUtxo = Some p -> paymentPrivateKey = None ->
        exists ud, r = ResUnsigned ud tx
          /\ filter (fun d => inputIndex d = 1%nat) ud =
               [ {| inputIndex := 1;
                    ui_satoshis := utxo_satoshis p;
                    ui_script := utxo_script p;
                    ui_sighash := SIGHASH E;
                    publicKeyString := paymentPublicKey;
                    stas := false |} ])
    /\ (forall ud tx', r = ResUnsigned ud tx' ->
        Forall (fun d => stas d = true <-> inputIndex d = 0%nat) ud).
Proof.
  intros H. apply unSignedFunc_Ok_inv in H as (pl & _ & ->).
  eexists. rewrite result_tx_finish. split; [reflexivity|].
  unfold expectedUnsignedData, signedInputs, paymentInput. cbn [inputs].
  split; [|split; [|split; [|split]]].
  - destruct paymentUtxo as [p|]; [destruct paymentPrivateKey as [pk|]|];
      reflexivity.
  - intros [ok ->] [pk ->]. simpl.
    destruct paymentUtxo as [p|]; simpl; (split; [reflexivity|]);
      (split; [reflexivity|]);
      repeat constructor; simpl; apply append_space_nonempty.
  - intros ->. simpl.
    destruct paymentUtxo as [p|]; [destruct paymentPrivateKey as [pk|] |];
      simpl; eexists; split; reflexivity.
  - intros p -> ->.
    destruct ownerPrivateKey as [ok|]; simpl; eexists; split; reflexivity.
  - intros ud tx' H.
    assert (Hd : Forall (fun d => stas d = true <-> inputIndex d = 0%nat)
                   [tokenDescriptor E ownerPublicKey stasUtxo]) by
      (by repeat constructor).
    assert (Hp : forall p,
               Forall (fun d => stas d = true <-> inputIndex d = 0%nat)
                 [paymentDescriptor E paymentPublicKey p]) by
      (intros p; repeat constructor; simpl; intros; discriminate).
    destruct ownerPrivateKey as [ok|], paymentUtxo as [p|],
      paymentPrivateKey as [pk|];
      simpl in H; try discriminate; injection H as <- _;
      rewrite ?Forall_app, ?Forall_nil; auto.
    apply (Forall_app _ [_] [_]). auto.
Qed.

Lemma C3_signed_or_descriptors_witness :
  (exists tx, Samples.signedResult = ResTx tx
     /\ map unscripted (inputs tx) =
          [spending Demo.stasUtxo; spending (Demo.paymentUtxo 5000)]
     /\ Forall (fun i => in_script i <> "") (inputs tx))
  /\ (exists ud tx, Samples.unsignedResult = ResUnsigned ud tx
        /\ map unscripted (inputs tx) =
             [spending Demo.stasUtxo; spending (Demo.paymentUtxo 5000)]
        /\ filter (fun d => inputIndex d = 0%nat) ud =
             [ {| inputIndex := 0; ui_satoshis := 10000;
                  ui_script := "h(owner-public)|h(issuer)|20|token-body";
                  ui_sighash := 65; publicKeyString := "owner-public";
                  stas := true |} ]
        /\ filter (fun d => inputIndex d = 1%nat) ud =
             [ {| inputIndex := 1; ui_satoshis := 5000;
                  ui_script := "76a914h(payment-public)88ac";
                  ui_sighash := 65; publicKeyString := "payment-public";
                  stas := false |} ]).
Proof.
  split.
  - destruct (C3_signed_or_descriptors (Demo.env 1) "owner-public"
                Demo.stasUtxo "payment-public" (Some (Demo.paymentUtxo 5000))
                Demo.twoDestinations (Some "cafe") false (Some Demo.ownerKey)
                (Some Demo.paymentKey) 23 false Samples.signedResult)
      as (tx & _ & Hins & Hboth & _).
    + vm_compute. reflexivity.
    + destruct Hboth as (Hr & _ & Hin); [by eexists | by eexists |].
      exists tx. split; [exact Hr|]. split; [exact Hins | exact Hin].
  - destruct (C3_signed_or_descriptors (Demo.env 1) "owner-public"
                Demo.stasUtxo "payment-public" (Some (Demo.paymentUtxo 5000))
                Demo.twoDestinations (Some "cafe") false None None 23 false
                Samples.unsignedResult)
      as (tx & _ & Hins & _ & Htoken & Hpayment & _).
    + vm_compute. reflexivity.
    + destruct (Htoken eq_refl) as (ud & Hr & H0).
      destruct (Hpayment _ eq_refl eq_refl) as (ud' & Hr' & H1).
      rewrite Hr in Hr'. injection Hr' as <-.
      exists ud, tx. split; [exact Hr|]. split; [exact Hins|].
      split; [exact H0 | exact H1].
Defined.

(** The fee estimated for the sample token UTXO with two destinations, no
    data and change requested is 22; a payment UTXO of exactly 22 leaves a
    change of 0, below any positive dust threshold, and the build goes
    through. *)
Lemma C4_counterexample : ~ C4_as_stated (Demo.env 1) 1.
Proof.
  intros H.
  specialize (H "owner-public" Demo.stasUtxo "payment-public"
                (Demo.paymentUtxo 22) Demo.twoDestinations None
                (Some Demo.ownerKey) (Some Demo.paymentKey) 22).
  assert (Hlt : utxo_satoshis (Demo.paymentUtxo 22) < 22 + 1) by (simpl; lia).
  apply H in Hlt. vm_compute in Hlt. discriminate.
Qed.

(** The same build through the public builder: the change output is the
    fourth output and holds 0. *)
Example signed_with_exact_fee :
  feeEstimate (Demo.env 1) Demo.stasUtxo Demo.twoDestinations None false = Ok 22
  /\ exists tx,
       signed (Demo.env 1) (Some Demo.ownerKey) Demo.stasUtxo
         Demo.twoDestinations (Some (Demo.paymentUtxo 22))
         (Some Demo.paymentKey) None false = Ok (ResTx tx)
       /\ outputs tx !! 3%nat =
            Some {| out_script := "76a914h(payment-public)88ac";
                    out_satoshis := 0 |}.
Proof. split; [vm_compute; reflexivity|]. eexists. split; vm_compute; reflexivity. Qed.

(** C4, amended.  In a build with a payment UTXO and change requested
    (isZeroChange false), when the output constructor refuses the change
    amount [paymentUtxo.satoshis - txCost] the build fails; the library
    refuses a negative amount, so a payment UTXO that cannot cover [txCost]
    makes the build fail.  A dust threshold plays no part: the zero-change
    threshold check is not run, the outcome of the build is the same
    whatever that check would answer, and a successful build carries, right
    after the destination outputs, a change output paying
    [paymentUtxo.satoshis - txCost] to the payment public-key hash, whether
    or not that amount reaches a dust threshold. *)
Theorem C4_change_amount_checked_by_output_only (E : Env)
    (chk : Z -> Z -> string -> bool)
    (ownerPublicKey : string) (stasUtxo : Utxo) (paymentPublicKey : string)
    (p : Utxo) (splitDestinations : list SplitDestination)
    (data : option string)
    (ownerPrivateKey paymentPrivateKey : option PrivateKey) (txCost : Z)
    (feeEstimateCall : bool) :
  let build :=
    unSignedFunc E ownerPublicKey stasUtxo paymentPublicKey (Some p)
      splitDestinations data false ownerPrivateKey paymentPrivateKey txCost
      feeEstimateCall in
  (outputAmountOk E (utxo_satoshis p - txCost) = false ->
   is_ok build = false
   /\ (planningChecksPass E ownerPublicKey stasUtxo paymentPublicKey (Some p)
         splitDestinations = true ->
       build = Err OutputAmountError))
  /\ ((forall n, n < 0 -> outputAmountOk E n = false) ->
      utxo_satoshis p < txCost -> is_ok build = false)
  /\ unSignedFunc (with_checkZeroChangeThreshold E chk) ownerPublicKey stasUtxo
       paymentPublicKey (Some p) splitDestinations data false ownerPrivateKey
       paymentPrivateKey txCost feeEstimateCall
     = build
  /\ forall r,
       build = Ok r ->
       exists tx,
         result_tx r = Some tx
         /\ outputs tx !! (1 + length splitDestinations)%nat =
              Some {| out_script :=
                        buildP2pkhOutputScript E
                          (getPKHfromPublicKey E paymentPublicKey);
                      out_satoshis := utxo_satoshis p - txCost |}.
Proof.
  intros build.
  assert (Hrefused : outputAmountOk E (utxo_satoshis p - txCost) = false ->
                     is_ok build = false).
  { intros Hc. unfold build. rewrite unSignedFunc_is_ok.
    destruct (planOutputs E ownerPublicKey stasUtxo paymentPublicKey (Some p)
                splitDestinations data false txCost feeEstimateCall)
      as [pl|e] eqn:Hpl; [|done].
    apply planOutputs_Ok_change_amount in Hpl. congruence. }
  split; [|split; [|split]].
  - intros Hc. split; [by apply Hrefused|].
    intros Hpass. unfold build, unSignedFunc.
    by rewrite planOutputs_change_refused.
  - intros Hneg Hlow. apply Hrefused, Hneg. lia.
  - by apply unSignedFunc_check_not_run.
  - intros r H. apply unSignedFunc_Ok_inv in H as (pl & _ & ->).
    eexists. rewrite result_tx_finish. split; [reflexivity|].
    simpl. rewrite lookup_app_r by (rewrite length_map; lia).
    by rewrite length_map, Nat.sub_diag.
Qed.

Lemma C4_change_amount_checked_by_output_only_witness :
  unSignedFunc (Demo.env 1) "owner-public" Demo.stasUtxo "payment-public"
    (Some (Demo.paymentUtxo 21)) Demo.twoDestinations None false
    (Some Demo.ownerKey) (Some Demo.paymentKey) 22 false
  = Err OutputAmountError
  /\ exists tx,
       result_tx Samples.signedResult = Some tx
       /\ outputs tx !! 3%nat =
            Some {| out_script := "76a914h(payment-public)88ac";
                    out_satoshis := 4977 |}.
Proof.
  split.
  - destruct (C4_change_amount_checked_by_output_only (Demo.env 1)
                (fun _ _ _ => false) "owner-public" Demo.stasUtxo
                "payment-public" (Demo.paymentUtxo 21) Demo.twoDestinations
                None (Some Demo.ownerKey) (Some Demo.paymentKey) 22 false)
      as ([_ H] & Hlow & _); [reflexivity|].
    assert (Hfails : is_ok
              (unSignedFunc (Demo.env 1) "owner-public" Demo.stasUtxo
                 "payment-public" (Some (Demo.paymentUtxo 21))
                 Demo.twoDestinations None false (Some Demo.ownerKey)
                 (Some Demo.paymentKey) 22 false) = false).
    { apply Hlow; [intros n Hn; apply Z.leb_gt; exact Hn | simpl; lia]. }
    apply H. vm_compute. reflexivity.
  - destruct (C4_change_amount_checked_by_output_only (Demo.env 1)
                (fun _ _ _ => false) "owner-public" Demo.stasUtxo
                "payment-public" (Demo.paymentUtxo 5000) Demo.twoDestinations
                (Some "cafe") (Some Demo.ownerKey) (Some Demo.paymentKey) 23
                false) as (_ & _ & _ & H).
    apply (H Samples.signedResult). vm_compute. reflexivity.
Defined.

(** C5.  In a build with isZeroChange = true that is not a fee-estimation
    call, when [paymentUtxo.satoshis - txCost] is below the dust threshold
    the build fails, and it fails with the error of the zero-change check
    whenever the checks that come before it pass.  In a fee-estimation call
    the check is skipped: the build is the same whatever the checker is. *)
Theorem C5_zero_change_threshold (E : Env) (dust : Z)
    (ownerPublicKey : string) (stasUtxo : Utxo) (paymentPublicKey : string)
    (paymentUtxo : option Utxo) (splitDestinations : list SplitDestination)
    (data : option string)
    (ownerPrivateKey paymentPrivateKey : option PrivateKey) (txCost : Z) :
  checkZeroChangeThreshold E = checkZeroChangeThreshold_spec dust ->
  (forall p, paymentUtxo = Some p -> utxo_satoshis p - txCost < dust ->
     is_ok (unSignedFunc E ownerPublicKey stasUtxo paymentPublicKey paymentUtxo
              splitDestinations data true ownerPrivateKey paymentPrivateKey
              txCost false) = false
     /\ (planningChecksPass E ownerPublicKey stasUtxo paymentPublicKey
           paymentUtxo splitDestinations = true ->
         unSignedFunc E ownerPublicKey stasUtxo paymentPublicKey paymentUtxo
           splitDestinations data true ownerPrivateKey paymentPrivateKey
           txCost false
         = Err (ZeroChangeError "RedeemSplit Function Zero Change")))
  /\ (forall chk,
        unSignedFunc (with_checkZeroChangeThreshold E chk) ownerPublicKey
          stasUtxo paymentPublicKey paymentUtxo splitDestinations data true
          ownerPrivateKey paymentPrivateKey txCost true
        = unSignedFunc E ownerPublicKey stasUtxo paymentPublicKey paymentUtxo
            splitDestinations data true ownerPrivateKey paymentPrivateKey
            txCost true).
Proof.
  intros Hspec. split; [|intros chk; by apply unSignedFunc_check_not_run].
  intros p -> Hlow.
  assert (Hfail : checkZeroChangeThreshold E (utxo_satoshis p) txCost
                    "RedeemSplit Function Zero Change" = false).
  { rewrite Hspec. unfold checkZeroChangeThreshold_spec.
    apply negb_false_iff, Z.ltb_lt, Hlow. }
  split.
  - rewrite unSignedFunc_is_ok.
    destruct (planOutputs E ownerPublicKey stasUtxo paymentPublicKey (Some p)
                splitDestinations data true txCost false) as [pl|e] eqn:Hpl;
      [|done].
    apply planOutputs_Ok_zero_change in Hpl as (p' & [= <-] & Hpass).
    congruence.
  - intros Hpass. unfold unSignedFunc.
    pose proof (planOutputs_zero_change_outcome E ownerPublicKey stasUtxo
                  paymentPublicKey (Some p) splitDestinations data txCost
                  Hpass) as Hout.
    simpl in Hout. by rewrite (Hout Hfail).
Qed.

Lemma C5_zero_change_threshold_witness :
  unSignedFunc (Demo.env 1) "owner-public" Demo.stasUtxo "payment-public"
    (Some (Demo.paymentUtxo 22)) Demo.twoDestinations None true
    (Some Demo.ownerKey) (Some Demo.paymentKey) 22 false
  = Err (ZeroChangeError "RedeemSplit Function Zero Change").
Proof.
  destruct (C5_zero_change_threshold (Demo.env 1) 1 "owner-public"
              Demo.stasUtxo "payment-public" (Some (Demo.paymentUtxo 22))
              Demo.twoDestinations None (Some Demo.ownerKey)
              (Some Demo.paymentKey) 22) as [H _].
  - reflexivity.
  - destruct (H (Demo.paymentUtxo 22)) as [_ Herr].
    + reflexivity.
    + simpl. lia.
    + apply Herr. vm_compute. reflexivity.
Defined.

(** The sample build with a data payload has five outputs and a plan of
    four entries. *)
Lemma C6_counterexample : ~ C6_as_stated (Demo.env 1).
Proof.
  intros H.
  destruct (planOutputs (Demo.env 1) "owner-public" Demo.stasUtxo
              "payment-public" (Some (Demo.paymentUtxo 5000))
              Demo.twoDestinations (Some "cafe") false 23 false)
    as [pl|e] eqn:Hpl; [|vm_compute in Hpl; discriminate].
  specialize (H "owner-public" Demo.stasUtxo "payment-public"
                (Some (Demo.paymentUtxo 5000)) Demo.twoDestinations
                (Some "cafe") false (Some Demo.ownerKey)
                (Some Demo.paymentKey) 23 false pl Samples.signedResult
                _ Hpl ltac:(vm_compute; reflexivity) eq_refl).
  apply Forall2_length in H.
  vm_compute in Hpl. injection Hpl as <-. simpl in H. discriminate.
Qed.

(** C6, amended.  For every successful build, the builder of the unlocking
    script is given the transaction with its final output list, a plan, and
    the data payload.  The plan has exactly one entry per output other than
    the data output (the redeem output, the destination outputs, the change
    output), in the order of the outputs, and each entry carries the
    public-key hash and the amount of its output.  The data output, when
    there is one, comes after these and has no entry in the plan: the
    formatted payload is the separate [data] argument of the builder. *)
Theorem C6_plan_matches_value_outputs (E : Env)
    (ownerPublicKey : string) (stasUtxo : Utxo) (paymentPublicKey : string)
    (paymentUtxo : option Utxo) (splitDestinations : list SplitDestination)
    (data : option string) (isZeroChange : bool)
    (ownerPrivateKey paymentPrivateKey : option PrivateKey) (txCost : Z)
    (feeEstimateCall : bool) (r : BuildResult) :
  unSignedFunc E ownerPublicKey stasUtxo paymentPublicKey paymentUtxo
    splitDestinations data isZeroChange ownerPrivateKey paymentPrivateKey
    txCost feeEstimateCall = Ok r ->
  exists pl tx redeem destinations change,
    planOutputs E ownerPublicKey stasUtxo paymentPublicKey paymentUtxo
      splitDestinations data isZeroChange txCost feeEstimateCall = Ok pl
    /\ result_tx r = Some tx
    /\ head (inputs tx) =
         Some (with_script
                 (tokenInputScript E ownerPublicKey stasUtxo isZeroChange
                    ownerPrivateKey pl)
                 (spending stasUtxo))
    /\ outputs (plan_tx pl) = outputs tx
    /\ plan_outputData pl = redeem :: destinations ++ change
    /\ outputs tx =
         payTo E redeem :: map (tokenTo E stasUtxo) destinations
         ++ map (payTo E) change ++ dataOutputs E stasUtxo data
    /\ length destinations = length splitDestinations
    /\ length change = count (hasChange paymentUtxo isZeroChange)
    /\ plan_data pl = expectedData E stasUtxo data.
Proof.
  intros H. apply unSignedFunc_Ok_inv in H as (pl & Hpl & ->).
  destruct (planOutputs_Ok_inv E _ _ _ _ _ _ _ _ _ _ Hpl)
    as (_ & Hout & Hplan & Hdata & _ & _).
  exists pl. eexists.
  exists (redeemEntry E stasUtxo splitDestinations),
         (map (destinationEntry E) splitDestinations),
         (changeEntries E paymentPublicKey paymentUtxo isZeroChange txCost).
  rewrite result_tx_finish.
  split; [done|]. split; [done|]. split; [done|]. split; [done|].
  split; [done|]. split.
  - simpl. unfold expectedOutputs. f_equal.
    rewrite map_map. f_equal. f_equal.
    unfold changeOutputs, changeEntries.
    by destruct paymentUtxo, isZeroChange.
  - split; [by rewrite length_map|]. split; [|done].
    unfold changeEntries. by destruct paymentUtxo, isZeroChange.
Qed.

Lemma C6_plan_matches_value_outputs_witness :
  exists pl tx,
    planOutputs (Demo.env 1) "owner-public" Demo.stasUtxo "payment-public"
      (Some (Demo.paymentUtxo 5000)) Demo.twoDestinations (Some "cafe")
      false 23 false = Ok pl
    /\ result_tx Samples.signedResult = Some tx
    /\ length (plan_outputData pl) = 4%nat
    /\ length (outputs tx) = 5%nat.
Proof.
  destruct (C6_plan_matches_value_outputs (Demo.env 1) "owner-public"
              Demo.stasUtxo "payment-public" (Some (Demo.paymentUtxo 5000))
              Demo.twoDestinations (Some "cafe") false (Some Demo.ownerKey)
              (Some Demo.paymentKey) 23 false Samples.signedResult)
    as (pl & tx & rd & ds & ch & Hpl & Htx & _ & _ & Hplan & Hout & Hds & Hch & _).
  - vm_compute. reflexivity.
  - exists pl, tx. split; [exact Hpl|]. split; [exact Htx|].
    rewrite Hplan, Hout. simpl.
    rewrite !length_app, !length_map, Hds, Hch. split; reflexivity.
Defined.

(** The measured build spends the caller's token UTXO: two calls that
    differ by the token UTXO measure two different transactions. *)
Lemma C7_counterexample : ~ C7_as_stated (Demo.env 1).
Proof.
  intros [T H].
  pose proof (H Demo.stasUtxo Demo.twoDestinations None false) as H1.
  pose proof (H Demo.longerStasUtxo Demo.twoDestinations None false) as H2.
  rewrite <- H2 in H1. vm_compute in H1. discriminate.
Qed.

(** C7, amended.  The fee-estimation entry point measures a build made
    from: N placeholder destinations obtained from buildSplitDestinations
    for the requested destination count N and the amount of the caller's
    token UTXO; the caller's own token UTXO (no template stands in for it);
    the template payment UTXO; the template key for both the owner and the
    payment role.  The build is the full signed build with txCost = 0 and
    feeEstimateCall = true, so that the zero-change threshold check is not
    run.  It returns a fully signed transaction of two inputs, and the fee
    is the library's estimate for that transaction at the rate SATS; when
    the build fails the estimate fails with the same error. *)
Theorem C7_fee_estimate_measures_signed_build (E : Env) (stasUtxo : Utxo)
    (splitDestinations : list SplitDestination) (data : option string)
    (isZeroChange : bool) :
  let key := templatePrivateKey E in
  let placeholders :=
    buildSplitDestinations E (length splitDestinations) (utxo_satoshis stasUtxo) in
  let build :=
    signedFunc E (Some key) stasUtxo placeholders
      (Some (paymentUtxoTemplate E)) (Some key) data isZeroChange 0 true in
  (forall e, build = Err e ->
     feeEstimate E stasUtxo splitDestinations data isZeroChange = Err e)
  /\ (forall r, build = Ok r ->
        exists tx,
          r = ResTx tx
          /\ feeEstimate E stasUtxo splitDestinations data isZeroChange
             = Ok (estimateFee E (SATS E) tx)
          /\ map in_output (inputs tx) =
               [ {| out_script := utxo_script stasUtxo;
                    out_satoshis := utxo_satoshis stasUtxo |};
                 {| out_script := utxo_script (paymentUtxoTemplate E);
                    out_satoshis := utxo_satoshis (paymentUtxoTemplate E) |} ]
          /\ Forall (fun i => in_script i <> "") (inputs tx)
          /\ outputs tx =
               expectedOutputs E stasUtxo (publicKey key)
                 (Some (paymentUtxoTemplate E)) placeholders data isZeroChange 0)
  /\ (forall chk,
        feeEstimate (with_checkZeroChangeThreshold E chk) stasUtxo
          splitDestinations data isZeroChange
        = feeEstimate E stasUtxo splitDestinations data isZeroChange).
Proof.
  intros key placeholders build. split; [|split].
  - intros e He. rewrite feeEstimate_measuredBuild.
    unfold measuredBuild. fold key placeholders build. by rewrite He.
  - intros r Hr. rewrite feeEstimate_measuredBuild.
    unfold measuredBuild. fold key placeholders build. rewrite Hr.
    apply signedFunc_Ok_inv in Hr as (pl & _ & ->).
    eexists. split; [reflexivity|]. split; [reflexivity|].
    split; [reflexivity|]. split; [|reflexivity].
    repeat constructor; simpl; apply append_space_nonempty.
  - intros chk. unfold feeEstimate, signedFunc. simpl.
    rewrite unSignedFunc_check_not_run by apply andb_false_r.
    reflexivity.
Qed.

Lemma C7_fee_estimate_measures_signed_build_witness :
  feeEstimate (Demo.env 1) Demo.stasUtxo Demo.twoDestinations None false = Ok 22.
Proof.
  destruct (C7_fee_estimate_measures_signed_build (Demo.env 1) Demo.stasUtxo
              Demo.twoDestinations None false) as (_ & H & _).
  destruct (signedFunc (Demo.env 1) (Some Demo.templateKey) Demo.stasUtxo
              (buildSplitDestinations (Demo.env 1) 2 10000)
              (Some (paymentUtxoTemplate (Demo.env 1)))
              (Some Demo.templateKey) None false 0 true) as [r|e] eqn:Hr;
    [|vm_compute in Hr; discriminate].
  destruct (H r Hr) as (tx & Htx & Hfee & _).
  rewrite Hfee. rewrite Htx in Hr. vm_compute in Hr. injection Hr as <-.
  vm_compute. reflexivity.
Defined.

(** Two token UTXOs that differ by the length of their locking script:
    the estimates are 22 and 25. *)
Lemma C8_counterexample : ~ C8_as_stated (Demo.env 1).
Proof.
  intros H.
  specialize (H Demo.stasUtxo Demo.longerStasUtxo Demo.twoDestinations
                Demo.twoDestinations None None false eq_refl eq_refl).
  vm_compute in H. discriminate.
Qed.

(** Two payloads of different lengths, both present: the estimates are 23
    and 27. *)
Example feeEstimate_depends_on_payload :
  feeEstimate (Demo.env 1) Demo.stasUtxo Demo.twoDestinations (Some "cafe") false
    = Ok 23
  /\ feeEstimate (Demo.env 1) Demo.stasUtxo Demo.twoDestinations
       (Some "cafecafecafecafecafecafecafecafecafecafecafecafe") false
     = Ok 27.
Proof. split; vm_compute; reflexivity. Qed.

(** C8, amended.  Two calls of the fee estimate that agree on the
    destination count, on the token UTXO, on the data payload and on the
    change flag return the same fee (or fail alike), however the addresses
    and the amounts of their destinations differ. *)
Theorem C8_fee_estimate_ignores_destinations (E : Env) (stasUtxo : Utxo)
    (splitDestinations1 splitDestinations2 : list SplitDestination)
    (data : option string) (isZeroChange : bool) :
  length splitDestinations1 = length splitDestinations2 ->
  feeEstimate E stasUtxo splitDestinations1 data isZeroChange
  = feeEstimate E stasUtxo splitDestinations2 data isZeroChange.
Proof. intros H. unfold feeEstimate. by rewrite H. Qed.

Lemma C8_fee_estimate_ignores_destinations_witness :
  feeEstimate (Demo.env 1) Demo.stasUtxo Demo.twoDestinations None false
  = feeEstimate (Demo.env 1) Demo.stasUtxo
      [ {| dest_address := "dave"; dest_satoshis := 1 |};
        {| dest_address := "erin-with-a-longer-address";
           dest_satoshis := 9000 |} ] None false.
Proof.
  apply (C8_fee_estimate_ignores_destinations (Demo.env 1) Demo.stasUtxo
           Demo.twoDestinations
           [ {| dest_address := "dave"; dest_satoshis := 1 |};
             {| dest_address := "erin-with-a-longer-address";
                dest_satoshis := 9000 |} ] None false).
  reflexivity.
Defined.

(** C9.  What the signed builder resolves with: both keys are needed for
    the call to go through at all, and the result is then the transaction
    object itself, never a hexadecimal string and never the object
    [{ unsignedData, tx }]. *)
Theorem C9_signed_returns_transaction_object (E : Env)
    (ownerPrivateKey : option PrivateKey) (stasUtxo : Utxo)
    (splitDestinations : list SplitDestination) (paymentUtxo : option Utxo)
    (paymentPrivateKey : option PrivateKey) (data : option string)
    (isZeroChange : bool) (r : BuildResult) :
  signed E ownerPrivateKey stasUtxo splitDestinations paymentUtxo
    paymentPrivateKey data isZeroChange = Ok r ->
  is_Some ownerPrivateKey /\ is_Some paymentPrivateKey
  /\ (exists tx, r = ResTx tx)
  /\ (forall hex, r <> ResHex hex).
Proof.
  intros H. unfold signed in H. bind_inv H as txCost Hfee.
  destruct ownerPrivateKey as [ok|]; [|discriminate].
  destruct paymentPrivateKey as [pk|]; [|discriminate].
  apply signedFunc_Ok_inv in H as (pl & _ & ->).
  split; [done|]. split; [done|]. split; [by eexists | discriminate].
Qed.

Lemma C9_signed_returns_transaction_object_witness :
  (exists tx, Samples.signedResult = ResTx tx)
  /\ (forall hex, Samples.signedResult <> ResHex hex).
Proof.
  destruct (C9_signed_returns_transaction_object (Demo.env 1)
              (Some Demo.ownerKey) Demo.stasUtxo Demo.twoDestinations
              (Some (Demo.paymentUtxo 5000)) (Some Demo.paymentKey)
              (Some "cafe") false Samples.signedResult)
    as (_ & _ & Htx & Hhex).
  - vm_compute. reflexivity.
  - split; [exact Htx | exact Hhex].
Defined.

(** C10.  The guard of the zero-change check is
    [isZeroChange && !feeEstimateCall]; it does not look at [isZeroFee].  So
    a build with isZeroChange = true, feeEstimateCall = false and no payment
    UTXO never succeeds: once the checks that come before pass, it stops on
    the read of [paymentUtxo.satoshis] on the absent payment UTXO.  The same
    arguments with isZeroChange = false go through the zero-fee path. *)
Theorem C10_zero_change_reads_absent_payment_utxo (E : Env)
    (ownerPublicKey : string) (stasUtxo : Utxo) (paymentPublicKey : string)
    (splitDestinations : list SplitDestination) (data : option string)
    (ownerPrivateKey paymentPrivateKey : option PrivateKey) (txCost : Z) :
  is_ok (unSignedFunc E ownerPublicKey stasUtxo paymentPublicKey None
           splitDestinations data true ownerPrivateKey paymentPrivateKey
           txCost false) = false
  /\ (planningChecksPass E ownerPublicKey stasUtxo paymentPublicKey None
        splitDestinations = true ->
      unSignedFunc E ownerPublicKey stasUtxo paymentPublicKey None
        splitDestinations data true ownerPrivateKey paymentPrivateKey
        txCost false
      = Err (TypeError "paymentUtxo")
      /\ (outputAmountOk E 0 = true ->
          is_ok (unSignedFunc E ownerPublicKey stasUtxo paymentPublicKey None
                   splitDestinations data false ownerPrivateKey
                   paymentPrivateKey txCost false) = true)).
Proof.
  split.
  - rewrite unSignedFunc_is_ok.
    destruct (planOutputs E ownerPublicKey stasUtxo paymentPublicKey None
                splitDestinations data true txCost false) as [pl|e] eqn:Hpl;
      [|done].
    apply planOutputs_Ok_zero_change in Hpl as (p & [=] & _).
  - intros Hpass. split.
    + unfold unSignedFunc.
      pose proof (planOutputs_zero_change_outcome E ownerPublicKey stasUtxo
                    paymentPublicKey None splitDestinations data txCost
                    Hpass) as Hout.
      simpl in Hout. by rewrite Hout.
    + intros Hzero. rewrite unSignedFunc_is_ok.
      apply planOutputs_pass; [done | discriminate | discriminate | done].
Qed.

Lemma C10_zero_change_reads_absent_payment_utxo_witness :
  unSignedFunc (Demo.env 1) "owner-public" Demo.stasUtxo "payment-public"
    None Demo.twoDestinations None true (Some Demo.ownerKey) None 0 false
  = Err (TypeError "paymentUtxo")
  /\ is_ok (unSignedFunc (Demo.env 1) "owner-public" Demo.stasUtxo
              "payment-public" None Demo.twoDestinations None false
              (Some Demo.ownerKey) None 0 false) = true.
Proof.
  destruct (C10_zero_change_reads_absent_payment_utxo (Demo.env 1)
              "owner-public" Demo.stasUtxo "payment-public"
              Demo.twoDestinations None (Some Demo.ownerKey) None 0)
    as [_ H].
  destruct H as [Herr Hok]; [vm_compute; reflexivity|].
  split; [exact Herr | apply Hok; reflexivity].
Defined.

(** ** Further properties of the builder *)

Section Amounts.

Variable E : Env.

Lemma sum_outputs_app (l1 l2 : list Output) :
  sum_outputs (l1 ++ l2) = sum_outputs l1 + sum_outputs l2.
Proof.
  unfold sum_outputs. induction l1 as [|o l1 IH]; simpl; [done|]. lia.
Qed.

Lemma sum_outputs_destinations (stasUtxo : Utxo) (dests : list SplitDestination) :
  sum_outputs (map (destinationOutput E stasUtxo) dests) = sum_satoshis dests.
Proof.
  unfold sum_outputs, sum_satoshis.
  induction dests as [|d dests IH]; simpl; [done|]. by rewrite IH.
Qed.

Lemma sum_outputs_data (stasUtxo : Utxo) (data : option string) :
  sum_outputs (dataOutputs E stasUtxo data) = 0.
Proof.
  unfold dataOutputs.
  by destruct data, (checkIfStas20 E (utxo_script stasUtxo)).
Qed.

Lemma sum_inputs_signedInputs (ownerPublicKey paymentPublicKey : string)
    (stasUtxo : Utxo) (paymentUtxo : option Utxo) (isZeroChange : bool)
    (ownerPrivateKey paymentPrivateKey : option PrivateKey) (pl : Plan) :
  sum_inputs (signedInputs E ownerPublicKey paymentPublicKey stasUtxo
                paymentUtxo isZeroChange ownerPrivateKey paymentPrivateKey pl)
  = utxo_satoshis stasUtxo
    + match paymentUtxo with Some p => utxo_satoshis p | None => 0 end.
Proof.
  unfold sum_inputs, signedInputs, paymentInput.
  destruct paymentUtxo as [p|]; [destruct paymentPrivateKey as [pk|]|];
    simpl; lia.
Qed.

Lemma unscripted_signedInputs (ownerPublicKey paymentPublicKey : string)
    (stasUtxo : Utxo) (paymentUtxo : option Utxo) (isZeroChange : bool)
    (ownerPrivateKey paymentPrivateKey : option PrivateKey) (pl : Plan) :
  map unscripted
    (signedInputs E ownerPublicKey paymentPublicKey stasUtxo paymentUtxo
       isZeroChange ownerPrivateKey paymentPrivateKey pl)
  = expectedInputs stasUtxo paymentUtxo.
Proof.
  unfold signedInputs, paymentInput, expectedInputs.
  destruct paymentUtxo as [p|]; [destruct paymentPrivateKey as [pk|]|];
    reflexivity.
Qed.

Lemma addDestinations_is_ok (stasUtxo : Utxo) (dests : list SplitDestination)
    (st : Transaction * list OutputData) :
  is_ok (addDestinations E (utxo_script stasUtxo)
           (checkIfStas20 E (utxo_script stasUtxo)) dests st)
  = forallb (destinationOk E stasUtxo) dests.
Proof.
  revert st. induction dests as [|d dests IH]; intros [tx od]; simpl; [done|].
  unfold destinationOk at 1, Output_new.
  destruct (checkDestinationAddressCondition E _ _ _); simpl; [|done].
  destruct (outputAmountOk E (dest_satoshis d)); simpl; [|done].
  apply IH.
Qed.

Lemma planOutputs_is_ok (ownerPublicKey : string) (stasUtxo : Utxo)
    (paymentPublicKey : string) (paymentUtxo : option Utxo)
    (splitDestinations : list SplitDestination) (data : option string)
    (isZeroChange : bool) (txCost : Z) (feeEstimateCall : bool) :
  is_ok (planOutputs E ownerPublicKey stasUtxo paymentPublicKey paymentUtxo
           splitDestinations data isZeroChange txCost feeEstimateCall)
  = buildChecksPass E ownerPublicKey stasUtxo paymentPublicKey paymentUtxo
      splitDestinations data isZeroChange txCost feeEstimateCall.
Proof.
  unfold buildChecksPass, planningChecksPass, planOutputs, Output_new, hasData.
  destruct (validateRedeemSplitArgs E ownerPublicKey stasUtxo paymentPublicKey
              paymentUtxo splitDestinations); simpl; [|done].
  assert (Hin : exists tx0,
             (if negb (isUndefined paymentUtxo)
              then let* p := deref "paymentUtxo" paymentUtxo in
                   Ok (from p (from stasUtxo Transaction_new))
              else Ok (from stasUtxo Transaction_new)) = Ok tx0).
  { destruct paymentUtxo; simpl; eauto. }
  destruct Hin as [tx0 ->]. simpl.
  destruct (outputAmountOk E (utxo_satoshis stasUtxo
                              - totalOutSats splitDestinations)); simpl; [|done].
  destruct (forallb (destinationOk E stasUtxo) splitDestinations) eqn:Hd; simpl.
  - rewrite addDestinations_pass by done. simpl.
    destruct paymentUtxo as [p|]; simpl.
    + destruct isZeroChange; simpl.
      * destruct feeEstimateCall; simpl.
        -- destruct (checkIfStas20 E (utxo_script stasUtxo)), data; simpl;
             try done; by destruct (outputAmountOk E 0).
        -- destruct (checkZeroChangeThreshold E (utxo_satoshis p) txCost _);
             simpl; [|done].
           destruct (checkIfStas20 E (utxo_script stasUtxo)), data; simpl;
             try done; by destruct (outputAmountOk E 0).
      * destruct (outputAmountOk E (utxo_satoshis p - txCost)); simpl; [|done].
        rewrite last_snoc. simpl.
        destruct (checkIfStas20 E (utxo_script stasUtxo)), data; simpl;
          try done; by destruct (outputAmountOk E 0).
    + destruct isZeroChange; simpl.
      * destruct feeEstimateCall; simpl; [|done].
        destruct (checkIfStas20 E (utxo_script stasUtxo)), data; simpl;
          try done; by destruct (outputAmountOk E 0).
      * destruct (checkIfStas20 E (utxo_script stasUtxo)), data; simpl;
          try done; by destruct (outputAmountOk E 0).
  - pose proof (addDestinations_is_ok stasUtxo splitDestinations
                  (addOutput
                     {| out_script :=
                          buildP2pkhOutputScript E
                            (getRedeemPublicKeyHash E (utxo_script stasUtxo));
                        out_satoshis :=
                          utxo_satoshis stasUtxo - totalOutSats splitDestinations |}
                     tx0,
                   [] ++ [ {| publicKeyHash :=
                                getRedeemPublicKeyHash E (utxo_script stasUtxo);
                              od_satoshis :=
                                utxo_satoshis stasUtxo
                                - totalOutSats splitDestinations |} ])) as Hok.
    rewrite Hd in Hok.
    destruct (addDestinations E _ _ splitDestinations _) as [st|e];
      simpl in *; [discriminate | done].
Qed.

End Amounts.

Section BuildShape.

Variable E : Env.

(** The transaction of a successful build, with the plan it was signed
    from: the plan's transaction has the expected inputs, with empty
    scripts, and the final outputs. *)
Lemma unSignedFunc_Ok_plan (ownerPublicKey : string) (stasUtxo : Utxo)
    (paymentPublicKey : string) (paymentUtxo : option Utxo)
    (splitDestinations : list SplitDestination) (data : option string)
    (isZeroChange : bool) (ownerPrivateKey paymentPrivateKey : option PrivateKey)
    (txCost : Z) (feeEstimateCall : bool) (r : BuildResult) :
  unSignedFunc E ownerPublicKey stasUtxo paymentPublicKey paymentUtxo
    splitDestinations data isZeroChange ownerPrivateKey paymentPrivateKey
    txCost feeEstimateCall = Ok r ->
  let outs := expectedOutputs E stasUtxo paymentPublicKey paymentUtxo
                splitDestinations data isZeroChange txCost in
  let pl := {| plan_tx := {| inputs := expectedInputs stasUtxo paymentUtxo;
                             outputs := outs |};
               plan_outputData :=
                 expectedPlan E stasUtxo paymentPublicKey paymentUtxo
                   splitDestinations isZeroChange txCost;
               plan_data := expectedData E stasUtxo data;
               plan_isStas20 := checkIfStas20 E (utxo_script stasUtxo);
               plan_isZeroFee := isUndefined paymentUtxo |} in
  r = finish
        (expectedUnsignedData E ownerPublicKey paymentPublicKey stasUtxo
           paymentUtxo ownerPrivateKey paymentPrivateKey)
        {| inputs := signedInputs E ownerPublicKey paymentPublicKey stasUtxo
                       paymentUtxo isZeroChange ownerPrivateKey
                       paymentPrivateKey pl;
           outputs := outs |}.
Proof.
  intros H. apply unSignedFunc_Ok_inv in H as (pl & Hpl & ->).
  destruct (planOutputs_Ok_inv E _ _ _ _ _ _ _ _ _ _ Hpl)
    as (Hin & Hout & Hplan & Hdata & H20 & Hzf).
  destruct pl as [[ins outs] od d s20 zf]. simpl in *. by subst.
Qed.

(** The fee paid by the transaction of a successful build. *)
Lemma unSignedFunc_Ok_fee (ownerPublicKey : string) (stasUtxo : Utxo)
    (paymentPublicKey : string) (paymentUtxo : option Utxo)
    (splitDestinations : list SplitDestination) (data : option string)
    (isZeroChange : bool) (ownerPrivateKey paymentPrivateKey : option PrivateKey)
    (txCost : Z) (feeEstimateCall : bool) (r : BuildResult) :
  unSignedFunc E ownerPublicKey stasUtxo paymentPublicKey paymentUtxo
    splitDestinations data isZeroChange ownerPrivateKey paymentPrivateKey
    txCost feeEstimateCall = Ok r ->
  exists tx,
    result_tx r = Some tx
    /\ tx_fee tx =
         match paymentUtxo with
         | None => 0
         | Some p => if isZeroChange then utxo_satoshis p else txCost
         end.
Proof.
  intros H. apply unSignedFunc_Ok_inv in H as (pl & _ & ->).
  eexists. rewrite result_tx_finish. split; [reflexivity|].
  unfold tx_fee. simpl. rewrite sum_inputs_signedInputs.
  unfold expectedOutputs.
  change (sum_outputs (?o :: ?l)) with (out_satoshis o + sum_outputs l).
  rewrite !sum_outputs_app, sum_outputs_destinations, sum_outputs_data.
  unfold changeOutputs, sum_outputs.
  destruct paymentUtxo as [p|]; [destruct isZeroChange|]; simpl; lia.
Qed.

Lemma addDestinations_app (s : string) (b : bool)
    (l1 l2 : list SplitDestination) (st : Transaction * list OutputData) :
  addDestinations E s b (l1 ++ l2) st
  = let* st' := addDestinations E s b l1 st in addDestinations E s b l2 st'.
Proof.
  revert st. induction l1 as [|d l1 IH]; intros st; simpl; [done|].
  destruct (addDestination E s b st d) as [st'|e]; simpl; [apply IH | done].
Qed.

End BuildShape.

(** X1.  In the transaction of a successful build the token input comes
    first and spends the token UTXO; the payment input comes second and is
    there exactly when a payment UTXO was supplied.  With no payment UTXO
    the transaction has one input and no change output: its outputs are the
    redeem output, the destination outputs and the data output if any. *)
Theorem X1_inputs_layout (E : Env)
    (ownerPublicKey : string) (stasUtxo : Utxo) (paymentPublicKey : string)
    (paymentUtxo : option Utxo) (splitDestinations : list SplitDestination)
    (data : option string) (isZeroChange : bool)
    (ownerPrivateKey paymentPrivateKey : option PrivateKey) (txCost : Z)
    (feeEstimateCall : bool) (r : BuildResult) :
  unSignedFunc E ownerPublicKey stasUtxo paymentPublicKey paymentUtxo
    splitDestinations data isZeroChange ownerPrivateKey paymentPrivateKey
    txCost feeEstimateCall = Ok r ->
  exists tx,
    result_tx r = Some tx
    /\ map unscripted (inputs tx) =
         spending stasUtxo
           :: match paymentUtxo with Some p => [spending p] | None => [] end
    /\ length (inputs tx) = (if isUndefined paymentUtxo then 1 else 2)%nat
    /\ (paymentUtxo = None ->
        outputs tx =
          redeemOutput E stasUtxo splitDestinations
            :: map (destinationOutput E stasUtxo) splitDestinations
            ++ dataOutputs E stasUtxo data).
Proof.
  intros H. apply unSignedFunc_Ok_inv in H as (pl & _ & ->).
  eexists. rewrite result_tx_finish. split; [reflexivity|]. simpl.
  split; [apply unscripted_signedInputs|]. split.
  - unfold signedInputs. by destruct paymentUtxo.
  - by intros ->.
Qed.

Lemma X1_inputs_layout_witness :
  exists tx,
    result_tx Samples.unsignedResult = Some tx
    /\ map unscripted (inputs tx) =
         [spending Demo.stasUtxo; spending (Demo.paymentUtxo 5000)]
    /\ length (inputs tx) = 2%nat.
Proof.
  destruct (X1_inputs_layout (Demo.env 1) "owner-public" Demo.stasUtxo
              "payment-public" (Some (Demo.paymentUtxo 5000))
              Demo.twoDestinations (Some "cafe") false None None 23 false
              Samples.unsignedResult)
    as (tx & Htx & Hin & Hlen & _).
  - vm_compute. reflexivity.
  - exists tx. split; [exact Htx|]. split; [exact Hin | exact Hlen].
Defined.

(** X2.  The fee paid by the transaction of a successful build, the amounts
    its inputs spend minus the amounts of its outputs, is [txCost] when a
    payment UTXO was supplied and change is requested, the whole amount of
    the payment UTXO when isZeroChange is true, and 0 when no payment UTXO
    was supplied. *)
Theorem X2_fee_paid (E : Env)
    (ownerPublicKey : string) (stasUtxo : Utxo) (paymentPublicKey : string)
    (paymentUtxo : option Utxo) (splitDestinations : list SplitDestination)
    (data : option string) (isZeroChange : bool)
    (ownerPrivateKey paymentPrivateKey : option PrivateKey) (txCost : Z)
    (feeEstimateCall : bool) (r : BuildResult) :
  unSignedFunc E ownerPublicKey stasUtxo paymentPublicKey paymentUtxo
    splitDestinations data isZeroChange ownerPrivateKey paymentPrivateKey
    txCost feeEstimateCall = Ok r ->
  exists tx,
    result_tx r = Some tx
    /\ sum_inputs (inputs tx) - sum_outputs (outputs tx) =
         match paymentUtxo with
         | None => 0
         | Some p => if isZeroChange then utxo_satoshis p else txCost
         end.
Proof. apply unSignedFunc_Ok_fee. Qed.

Lemma X2_fee_paid_witness :
  exists tx,
    result_tx Samples.signedResult = Some tx
    /\ sum_inputs (inputs tx) - sum_outputs (outputs tx) = 23.
Proof.
  apply (X2_fee_paid (Demo.env 1) "owner-public" Demo.stasUtxo
           "payment-public" (Some (Demo.paymentUtxo 5000))
           Demo.twoDestinations (Some "cafe") false (Some Demo.ownerKey)
           (Some Demo.paymentKey) 23 false Samples.signedResult).
  vm_compute. reflexivity.
Defined.

(** X3.  Token amount conservation: in the transaction of a successful
    build the redeem output and the destination outputs, the first
    1 + |destinations| outputs, add up to the amount of the token UTXO. *)
Theorem X3_token_amount_conserved (E : Env)
    (ownerPublicKey : string) (stasUtxo : Utxo) (paymentPublicKey : string)
    (paymentUtxo : option Utxo) (splitDestinations : list SplitDestination)
    (data : option string) (isZeroChange : bool)
    (ownerPrivateKey paymentPrivateKey : option PrivateKey) (txCost : Z)
    (feeEstimateCall : bool) (r : BuildResult) :
  unSignedFunc E ownerPublicKey stasUtxo paymentPublicKey paymentUtxo
    splitDestinations data isZeroChange ownerPrivateKey paymentPrivateKey
    txCost feeEstimateCall = Ok r ->
  exists tx,
    result_tx r = Some tx
    /\ sum_outputs (take (S (length splitDestinations)) (outputs tx))
       = utxo_satoshis stasUtxo.
Proof.
  intros H. apply unSignedFunc_Ok_inv in H as (pl & _ & ->).
  eexists. rewrite result_tx_finish. split; [reflexivity|].
  simpl. rewrite take_app_length' by (by rewrite length_map).
  change (sum_outputs (?o :: ?l)) with (out_satoshis o + sum_outputs l).
  rewrite sum_outputs_destinations. simpl. lia.
Qed.

Lemma X3_token_amount_conserved_witness :
  exists tx,
    result_tx Samples.signedResult = Some tx
    /\ sum_outputs (take 3 (outputs tx)) = 10000.
Proof.
  apply (X3_token_amount_conserved (Demo.env 1) "owner-public" Demo.stasUtxo
           "payment-public" (Some (Demo.paymentUtxo 5000))
           Demo.twoDestinations (Some "cafe") false (Some Demo.ownerKey)
           (Some Demo.paymentKey) 23 false Samples.signedResult).
  vm_compute. reflexivity.
Defined.

(** X4.  A build that succeeds has passed every check it meets: the
    validation of the arguments, the amount of the redeem output, the
    address condition and the amount of every destination, the amount of
    the change output when one is requested, the zero-change check when
    isZeroChange is true outside a fee estimation (with a payment UTXO to
    read), and the amount of the data output when there is one.  So a build
    for which one of these checks fails never succeeds, whatever private
    keys are supplied. *)
Theorem X4_success_needs_every_check (E : Env)
    (ownerPublicKey : string) (stasUtxo : Utxo) (paymentPublicKey : string)
    (paymentUtxo : option Utxo) (splitDestinations : list SplitDestination)
    (data : option string) (isZeroChange : bool)
    (ownerPrivateKey paymentPrivateKey : option PrivateKey) (txCost : Z)
    (feeEstimateCall : bool) (r : BuildResult) :
  unSignedFunc E ownerPublicKey stasUtxo paymentPublicKey paymentUtxo
    splitDestinations data isZeroChange ownerPrivateKey paymentPrivateKey
    txCost feeEstimateCall = Ok r ->
  validateRedeemSplitArgs E ownerPublicKey stasUtxo paymentPublicKey
    paymentUtxo splitDestinations = true
  /\ outputAmountOk E (utxo_satoshis stasUtxo - sum_satoshis splitDestinations)
     = true
  /\ Forall (fun d => destinationOk E stasUtxo d = true) splitDestinations
  /\ (forall p, paymentUtxo = Some p -> isZeroChange = false ->
      outputAmountOk E (utxo_satoshis p - txCost) = true)
  /\ (isZeroChange = true -> feeEstimateCall = false ->
      exists p, paymentUtxo = Some p
        /\ checkZeroChangeThreshold E (utxo_satoshis p) txCost
             "RedeemSplit Function Zero Change" = true)
  /\ (hasData E stasUtxo data = true -> outputAmountOk E 0 = true).
Proof.
  intros H.
  assert (Hok : buildChecksPass E ownerPublicKey stasUtxo paymentPublicKey
                  paymentUtxo splitDestinations data isZeroChange txCost
                  feeEstimateCall = true).
  { rewrite <- planOutputs_is_ok,
      <- (unSignedFunc_is_ok E _ _ _ _ _ _ _ ownerPrivateKey paymentPrivateKey).
    by rewrite H. }
  unfold buildChecksPass, planningChecksPass in Hok.
  rewrite totalOutSats_sum in Hok.
  apply andb_prop in Hok as [Hok Hdata].
  apply andb_prop in Hok as [Hok Hzc].
  apply andb_prop in Hok as [Hok Hchange].
  apply andb_prop in Hok as [Hok Hdests].
  apply andb_prop in Hok as [Hval Hredeem].
  split; [done|]. split; [done|].
  split.
  { apply Forall_forall. intros d Hd.
    apply (proj1 (forallb_forall _ _) Hdests), list_elem_of_In, Hd. }
  split; [|split].
  - intros p -> ->. done.
  - intros -> ->. simpl in *. destruct paymentUtxo as [p|]; [eauto | done].
  - intros Hd. by rewrite Hd in *.
Qed.

Lemma X4_success_needs_every_check_witness :
  outputAmountOk (Demo.env 1) (10000 - 7000) = true
  /\ Forall (fun d => destinationOk (Demo.env 1) Demo.stasUtxo d = true)
       Demo.twoDestinations
  /\ outputAmountOk (Demo.env 1) (5000 - 23) = true.
Proof.
  destruct (X4_success_needs_every_check (Demo.env 1) "owner-public"
              Demo.stasUtxo "payment-public" (Some (Demo.paymentUtxo 5000))
              Demo.twoDestinations (Some "cafe") false (Some Demo.ownerKey)
              (Some Demo.paymentKey) 23 false Samples.signedResult)
    as (_ & Hr & Hd & Hc & _).
  - vm_compute. reflexivity.
  - split; [exact Hr|]. split; [exact Hd|].
    apply (Hc (Demo.paymentUtxo 5000)); reflexivity.
Defined.



(** X6.  The signed builder needs both private keys, also when no payment
    UTXO is supplied: it reads the public key of each key object before it
    builds.  With a key missing it never succeeds, and once the fee
    estimate has succeeded it stops on the read of the missing key. *)
Theorem X6_signed_needs_both_keys (E : Env)
    (ownerPrivateKey : option PrivateKey) (stasUtxo : Utxo)
    (splitDestinations : list SplitDestination) (paymentUtxo : option Utxo)
    (paymentPrivateKey : option PrivateKey) (data : option string)
    (isZeroChange : bool) :
  ownerPrivateKey = None \/ paymentPrivateKey = None ->
  is_ok (signed E ownerPrivateKey stasUtxo splitDestinations paymentUtxo
           paymentPrivateKey data isZeroChange) = false
  /\ (forall fee,
        feeEstimate E stasUtxo splitDestinations data isZeroChange = Ok fee ->
        exists what,
          signed E ownerPrivateKey stasUtxo splitDestinations paymentUtxo
            paymentPrivateKey data isZeroChange = Err (TypeError what)).
Proof.
  intros Hmissing. unfold signed, signedFunc.
  destruct (feeEstimate E stasUtxo splitDestinations data isZeroChange)
    as [fee|e]; simpl.
  - destruct ownerPrivateKey as [ok|]; simpl.
    + destruct paymentPrivateKey as [pk|]; simpl.
      * by destruct Hmissing.
      * split; [done|]. intros _ _. by eexists.
    + split; [done|]. intros _ _. by eexists.
  - split; [done|]. intros fee. discriminate.
Qed.

Lemma X6_signed_needs_both_keys_witness :
  signed (Demo.env 1) (Some Demo.ownerKey) Demo.stasUtxo Demo.twoDestinations
    None None None false
  = Err (TypeError "paymentPrivateKey").
Proof.
  destruct (X6_signed_needs_both_keys (Demo.env 1) (Some Demo.ownerKey)
              Demo.stasUtxo Demo.twoDestinations None None None false)
    as [_ H].
  - right. reflexivity.
  - destruct (H 22) as [what Hw]; [vm_compute; reflexivity|].
    rewrite Hw. vm_compute in Hw. injection Hw as <-. reflexivity.
Defined.

(** X7.  What the signatures of a fully signed build with a payment UTXO
    are computed over.  The signature of the token input is computed over
    the transaction that already has its final outputs and whose two
    inputs still have an empty script; the unsigned fragment is built from
    that same transaction.  The signature of the payment input is computed
    afterwards, over the transaction whose token input carries its final
    script.  No output is added or changed once a signature is made. *)
Theorem X7_signatures_cover_final_outputs (E : Env)
    (ownerPublicKey : string) (stasUtxo : Utxo) (paymentPublicKey : string)
    (p : Utxo) (splitDestinations : list SplitDestination)
    (data : option string) (isZeroChange : bool)
    (ownerKey paymentKey : PrivateKey) (txCost : Z)
    (feeEstimateCall : bool) (r : BuildResult) :
  unSignedFunc E ownerPublicKey stasUtxo paymentPublicKey (Some p)
    splitDestinations data isZeroChange (Some ownerKey) (Some paymentKey)
    txCost feeEstimateCall = Ok r ->
  exists tx,
    r = ResTx tx
    /\ let unsignedTx :=
         {| inputs := [spending stasUtxo; spending p]; outputs := outputs tx |} in
       let fragment :=
         buildUnlockingScriptUnsigned E unsignedTx
           (expectedPlan E stasUtxo paymentPublicKey (Some p) splitDestinations
              isZeroChange txCost)
           (checkIfStas20 E (utxo_script stasUtxo))
           (expectedData E stasUtxo data) false isZeroChange in
       let tokenIn :=
         with_script
           (fragment +:+ " " +:+
            Sighash_sign E unsignedTx ownerKey (SIGHASH E) 0
              (utxo_script stasUtxo) (utxo_satoshis stasUtxo)
            +:+ " " +:+ ownerPublicKey)
           (spending stasUtxo) in
       inputs tx =
         [ tokenIn;
           with_script
             (Sighash_sign E
                {| inputs := [tokenIn; spending p]; outputs := outputs tx |}
                paymentKey (SIGHASH E) 1 (utxo_script p) (utxo_satoshis p)
              +:+ " " +:+ paymentPublicKey)
             (spending p) ].
Proof.
  intros H. apply unSignedFunc_Ok_plan in H. simpl in H. subst r.
  eexists. split; reflexivity.
Qed.

Lemma X7_signatures_cover_final_outputs_witness :
  exists tx,
    Samples.signedResult = ResTx tx
    /\ map in_script (inputs tx) =
         [ "3000 h(issuer) 3000 h(bob) 4000 h(carol) 4977 h(payment-public)cafe sig(owner-secret) owner-public";
           "sig(payment-secret) payment-public" ].
Proof.
  destruct (X7_signatures_cover_final_outputs (Demo.env 1) "owner-public"
              Demo.stasUtxo "payment-public" (Demo.paymentUtxo 5000)
              Demo.twoDestinations (Some "cafe") false Demo.ownerKey
              Demo.paymentKey 23 false Samples.signedResult)
    as (tx & Hr & Hin).
  - vm_compute. reflexivity.
  - exists tx. split; [exact Hr|]. rewrite Hin.
    injection Hr as <-. vm_compute. reflexivity.
Defined.

(** X8.  The descriptors returned with an unsigned transaction describe
    inputs of that transaction: each descriptor's index is the index of an
    input, its script and amount are those of the output that this input
    spends, and its signature-hash mode is SIGHASH.  No two descriptors
    have the same index, there is at least one descriptor and at most one
    per input, and a payment input that has a descriptor still has an empty
    unlocking script. *)
Theorem X8_descriptors_describe_inputs (E : Env)
    (ownerPublicKey : string) (stasUtxo : Utxo) (paymentPublicKey : string)
    (paymentUtxo : option Utxo) (splitDestinations : list SplitDestination)
    (data : option string) (isZeroChange : bool)
    (ownerPrivateKey paymentPrivateKey : option PrivateKey) (txCost : Z)
    (feeEstimateCall : bool) (ud : list UnsignedInput) (tx : Transaction) :
  unSignedFunc E ownerPublicKey stasUtxo paymentPublicKey paymentUtxo
    splitDestinations data isZeroChange ownerPrivateKey paymentPrivateKey
    txCost feeEstimateCall = Ok (ResUnsigned ud tx) ->
  Forall (fun d =>
            exists inp,
              inputs tx !! inputIndex d = Some inp
              /\ out_script (in_output inp) = ui_script d
              /\ out_satoshis (in_output inp) = ui_satoshis d
              /\ ui_sighash d = SIGHASH E
              /\ (inputIndex d = 1%nat -> in_script inp = "")) ud
  /\ NoDup (map inputIndex ud)
  /\ (1 <= length ud <= length (inputs tx))%nat.
Proof.
  intros H. apply unSignedFunc_Ok_inv in H as (pl & _ & H).
  unfold expectedUnsignedData, signedInputs, paymentInput in H.
  destruct ownerPrivateKey as [ok|], paymentUtxo as [p|],
    paymentPrivateKey as [pk|]; simpl in H; try discriminate;
    injection H as -> ->; simpl;
    (split; [repeat constructor; eexists; (split; [reflexivity|]); simpl;
             repeat split; done
            |split; [apply (bool_decide_unpack _); by compute | lia]]).
Qed.

Lemma X8_descriptors_describe_inputs_witness :
  exists ud tx,
    Samples.unsignedResult = ResUnsigned ud tx
    /\ map inputIndex ud = [0%nat; 1%nat]
    /\ NoDup (map inputIndex ud).
Proof.
  destruct Samples.unsignedResult as [hex|tx|ud tx] eqn:Hr;
    [vm_compute in Hr; discriminate.. |].
  destruct (X8_descriptors_describe_inputs (Demo.env 1) "owner-public"
              Demo.stasUtxo "payment-public" (Some (Demo.paymentUtxo 5000))
              Demo.twoDestinations (Some "cafe") false None None 23 false
              ud tx) as (_ & Hnd & _).
  - rewrite <- Hr. vm_compute. reflexivity.
  - exists ud, tx. split; [reflexivity|]. split; [|exact Hnd].
    vm_compute in Hr. injection Hr as <- _. reflexivity.
Defined.

(** The change output of a successful build with a payment UTXO and change
    requested sits right after the destination outputs. *)
Lemma unSignedFunc_Ok_change (E : Env)
    (ownerPublicKey : string) (stasUtxo : Utxo) (paymentPublicKey : string)
    (p : Utxo) (splitDestinations : list SplitDestination)
    (data : option string)
    (ownerPrivateKey paymentPrivateKey : option PrivateKey) (txCost : Z)
    (feeEstimateCall : bool) (r : BuildResult) :
  unSignedFunc E ownerPublicKey stasUtxo paymentPublicKey (Some p)
    splitDestinations data false ownerPrivateKey paymentPrivateKey txCost
    feeEstimateCall = Ok r ->
  exists tx,
    result_tx r = Some tx
    /\ tx_fee tx = txCost
    /\ outputs tx !! (1 + length splitDestinations)%nat =
         Some (changeOutput E paymentPublicKey p txCost).
Proof.
  intros H.
  destruct (unSignedFunc_Ok_fee E _ _ _ _ _ _ _ _ _ _ _ _ H) as (tx & Htx & Hfee).
  apply unSignedFunc_Ok_inv in H as (pl & _ & ->).
  rewrite result_tx_finish in Htx. injection Htx as <-.
  eexists. rewrite result_tx_finish. split; [reflexivity|].
  split; [exact Hfee|].
  simpl. rewrite lookup_app_r by (rewrite length_map; lia).
  by rewrite length_map, Nat.sub_diag.
Qed.

(** X9.  The public builders pay the estimated fee.  When signed or
    unSigned succeeds with a payment UTXO and change requested, the fee
    estimate for the same token UTXO, destinations and data has succeeded,
    the transaction pays exactly that fee, and its change output, right
    after the destination outputs, holds the payment UTXO's amount minus
    that fee. *)
Theorem X9_public_builders_pay_estimated_fee (E : Env)
    (ownerPrivateKey paymentPrivateKey : option PrivateKey)
    (ownerPublicKey paymentPublicKey : string) (stasUtxo p : Utxo)
    (splitDestinations : list SplitDestination) (data : option string)
    (r : BuildResult) :
  signed E ownerPrivateKey stasUtxo splitDestinations (Some p)
    paymentPrivateKey data false = Ok r
  \/ unSigned E ownerPublicKey stasUtxo paymentPublicKey (Some p)
       splitDestinations data false = Ok r ->
  exists fee tx change,
    feeEstimate E stasUtxo splitDestinations data false = Ok fee
    /\ result_tx r = Some tx
    /\ sum_inputs (inputs tx) - sum_outputs (outputs tx) = fee
    /\ outputs tx !! (1 + length splitDestinations)%nat = Some change
    /\ out_satoshis change = utxo_satoshis p - fee.
Proof.
  intros [H | H].
  - apply signed_Ok_inv in H as (ok & pk & fee & _ & _ & Hfee & H).
    apply unSignedFunc_Ok_change in H as (tx & Htx & Hpaid & Hchange).
    by exists fee, tx, (changeOutput E (publicKey pk) p fee).
  - apply unSigned_Ok_inv in H as (fee & Hfee & H).
    apply unSignedFunc_Ok_change in H as (tx & Htx & Hpaid & Hchange).
    by exists fee, tx, (changeOutput E paymentPublicKey p fee).
Qed.

Lemma X9_public_builders_pay_estimated_fee_witness :
  exists tx change,
    feeEstimate (Demo.env 1) Demo.stasUtxo Demo.twoDestinations (Some "cafe")
      false = Ok 23
    /\ result_tx Samples.signedResult = Some tx
    /\ sum_inputs (inputs tx) - sum_outputs (outputs tx) = 23
    /\ outputs tx !! 3%nat = Some change
    /\ out_satoshis change = 4977.
Proof.
  destruct (X9_public_builders_pay_estimated_fee (Demo.env 1)
              (Some Demo.ownerKey) (Some Demo.paymentKey) "" ""
              Demo.stasUtxo (Demo.paymentUtxo 5000) Demo.twoDestinations
              (Some "cafe") Samples.signedResult)
    as (fee & tx & change & Hfee & Htx & Hpaid & Hchange & Hamount).
  - left. vm_compute. reflexivity.
  - assert (fee = 23) as -> by (vm_compute in Hfee; congruence).
    exists tx, change. repeat (split; [assumption|]). exact Hamount.
Defined.

(** X10.  Which failure a build reports.  A rejected validation is
    reported before anything else.  Then a redeem amount that the output
    constructor refuses — the destinations take more than the token UTXO
    holds and the library refuses the negative amount — is reported before
    any destination is looked at.  Then the first destination that fails
    the address condition stops the build, whatever the destinations after
    it, the payment UTXO and the keys are. *)
Theorem X10_first_failure_reported (E : Env)
    (ownerPublicKey : string) (stasUtxo : Utxo) (paymentPublicKey : string)
    (paymentUtxo : option Utxo) (splitDestinations : list SplitDestination)
    (data : option string) (isZeroChange : bool)
    (ownerPrivateKey paymentPrivateKey : option PrivateKey) (txCost : Z)
    (feeEstimateCall : bool) :
  let build :=
    unSignedFunc E ownerPublicKey stasUtxo paymentPublicKey paymentUtxo
      splitDestinations data isZeroChange ownerPrivateKey paymentPrivateKey
      txCost feeEstimateCall in
  let valid :=
    validateRedeemSplitArgs E ownerPublicKey stasUtxo paymentPublicKey
      paymentUtxo splitDestinations in
  let redeemOk :=
    outputAmountOk E (utxo_satoshis stasUtxo - sum_satoshis splitDestinations) in
  (valid = false -> build = Err ValidationError)
  /\ (valid = true -> redeemOk = false -> build = Err OutputAmountError)
  /\ (valid = true -> redeemOk = true ->
      forall before d after,
        splitDestinations = before ++ d :: after ->
        forallb (destinationOk E stasUtxo) before = true ->
        checkDestinationAddressCondition E
          (getRedeemPublicKeyHash E
             (updateStasScript E (addressToPKH E (dest_address d))
                (utxo_script stasUtxo)))
          (addressToPKH E (dest_address d))
          (checkIfStas20 E (utxo_script stasUtxo)) = false ->
        build = Err DestinationAddressError).
Proof.
  intros build valid redeemOk. subst build valid redeemOk.
  rewrite <- totalOutSats_sum.
  unfold unSignedFunc, planOutputs, Output_new.
  split; [intros ->; reflexivity|].
  split.
  - intros -> Hr. simpl. destruct paymentUtxo as [p|]; simpl; by rewrite Hr.
  - intros -> Hr before d after Hsplit Hbefore Hd. simpl.
    destruct paymentUtxo as [p|]; simpl; rewrite Hr; simpl;
      rewrite Hsplit, addDestinations_app, addDestinations_pass by done;
      simpl; unfold addDestination; by rewrite Hd.
Qed.

Lemma X10_first_failure_reported_witness :
  unSignedFunc (Demo.env 1) "owner-public" Demo.stasUtxo "payment-public"
    (Some (Demo.paymentUtxo 5000))
    [ {| dest_address := "bob"; dest_satoshis := 3000 |};
      {| dest_address := "issuer"; dest_satoshis := 4000 |};
      {| dest_address := "carol"; dest_satoshis := 90000 |} ]
    None false (Some Demo.ownerKey) (Some Demo.paymentKey) 23 false
  = Err OutputAmountError
  /\ unSignedFunc (Demo.env 1) "owner-public" Demo.stasUtxo "payment-public"
       (Some (Demo.paymentUtxo 5000))
       [ {| dest_address := "bob"; dest_satoshis := 3000 |};
         {| dest_address := "issuer"; dest_satoshis := 4000 |};
         {| dest_address := "carol"; dest_satoshis := 1000 |} ]
       None false (Some Demo.ownerKey) (Some Demo.paymentKey) 23 false
     = Err DestinationAddressError.
Proof.
  split.
  - destruct (X10_first_failure_reported (Demo.env 1) "owner-public"
                Demo.stasUtxo "payment-public" (Some (Demo.paymentUtxo 5000))
                [ {| dest_address := "bob"; dest_satoshis := 3000 |};
                  {| dest_address := "issuer"; dest_satoshis := 4000 |};
                  {| dest_address := "carol"; dest_satoshis := 90000 |} ]
                None false (Some Demo.ownerKey) (Some Demo.paymentKey) 23 false)
      as (_ & H & _).
    apply H; reflexivity.
  - destruct (X10_first_failure_reported (Demo.env 1) "owner-public"
                Demo.stasUtxo "payment-public" (Some (Demo.paymentUtxo 5000))
                [ {| dest_address := "bob"; dest_satoshis := 3000 |};
                  {| dest_address := "issuer"; dest_satoshis := 4000 |};
                  {| dest_address := "carol"; dest_satoshis := 1000 |} ]
                None false (Some Demo.ownerKey) (Some Demo.paymentKey) 23 false)
      as (_ & _ & H).
    apply (H eq_refl eq_refl
             [ {| dest_address := "bob"; dest_satoshis := 3000 |} ]
             {| dest_address := "issuer"; dest_satoshis := 4000 |}
             [ {| dest_address := "carol"; dest_satoshis := 1000 |} ]);
      reflexivity.
Defined.

(** X11.  The unsigned builder always returns the object form: the
    transaction comes with the descriptor of the token input, followed by
    the descriptor of the payment input when a payment UTXO was supplied.
    The token input carries the unsigned fragment alone, built from the
    transaction with its final outputs, and the payment input is left with
    an empty script. *)
Theorem X11_unSigned_returns_descriptors (E : Env)
    (ownerPublicKey : string) (stasUtxo : Utxo) (paymentPublicKey : string)
    (paymentUtxo : option Utxo) (splitDestinations : list SplitDestination)
    (data : option string) (isZeroChange : bool) (r : BuildResult) :
  unSigned E ownerPublicKey stasUtxo paymentPublicKey paymentUtxo
    splitDestinations data isZeroChange = Ok r ->
  exists fee tx,
    feeEstimate E stasUtxo splitDestinations data isZeroChange = Ok fee
    /\ r = ResUnsigned
             (tokenDescriptor E ownerPublicKey stasUtxo
                :: match paymentUtxo with
                   | Some p => [paymentDescriptor E paymentPublicKey p]
                   | None => []
                   end)
             tx
    /\ inputs tx =
         with_script
           (buildUnlockingScriptUnsigned E
              {| inputs := expectedInputs stasUtxo paymentUtxo;
                 outputs := outputs tx |}
              (expectedPlan E stasUtxo paymentPublicKey paymentUtxo
                 splitDestinations isZeroChange fee)
              (checkIfStas20 E (utxo_script stasUtxo))
              (expectedData E stasUtxo data) (isUndefined paymentUtxo)
              isZeroChange)
           (spending stasUtxo)
           :: match paymentUtxo with Some p => [spending p] | None => [] end.
Proof.
  intros H. apply unSigned_Ok_inv in H as (fee & Hfee & H).
  apply unSignedFunc_Ok_plan in H. simpl in H. subst r.
  exists fee.
  unfold expectedUnsignedData, signedInputs, paymentInput.
  destruct paymentUtxo as [p|]; simpl; eexists;
    (split; [exact Hfee|]); split; reflexivity.
Qed.

Lemma X11_unSigned_returns_descriptors_witness :
  exists tx,
    unSigned (Demo.env 1) "owner-public" Demo.stasUtxo "payment-public"
      (Some (Demo.paymentUtxo 5000)) Demo.twoDestinations (Some "cafe") false
    = Ok (ResUnsigned
            [ tokenDescriptor (Demo.env 1) "owner-public" Demo.stasUtxo;
              paymentDescriptor (Demo.env 1) "payment-public"
                (Demo.paymentUtxo 5000) ] tx).
Proof.
  destruct (unSigned (Demo.env 1) "owner-public" Demo.stasUtxo
              "payment-public" (Some (Demo.paymentUtxo 5000))
              Demo.twoDestinations (Some "cafe") false) as [r|e] eqn:Hr;
    [|vm_compute in Hr; discriminate].
  destruct (X11_unSigned_returns_descriptors (Demo.env 1) "owner-public"
              Demo.stasUtxo "payment-public" (Some (Demo.paymentUtxo 5000))
              Demo.twoDestinations (Some "cafe") false r Hr)
    as (fee & tx & _ & -> & _).
  by exists tx.
Defined.

(** The measured build of a successful fee estimate. *)
Lemma feeEstimate_Ok_inv (E : Env) (stasUtxo : Utxo)
    (splitDestinations : list SplitDestination) (data : option string)
    (isZeroChange : bool) (fee : Z) :
  feeEstimate E stasUtxo splitDestinations data isZeroChange = Ok fee ->
  exists tx,
    measuredBuild E stasUtxo splitDestinations data isZeroChange = Ok (ResTx tx)
    /\ fee = estimateFee E (SATS E) tx.
Proof.
  rewrite feeEstimate_measuredBuild. intros H. bind_inv H as r Hr.
  pose proof Hr as Hr'. unfold measuredBuild in Hr'.
  apply signedFunc_Ok_inv in Hr' as (pl & _ & ->).
  simpl in H. injection H as <-. eauto.
Qed.

(** X13.  The fee is estimated on a transaction of the same shape as the
    one that is built.  When buildSplitDestinations returns as many
    placeholders as it is asked for, and signed or unSigned succeeds with a
    payment UTXO, the measured transaction has as many inputs and as many
    outputs as the transaction that is returned. *)
Theorem X13_measured_transaction_has_same_shape (E : Env)
    (ownerPrivateKey paymentPrivateKey : option PrivateKey)
    (ownerPublicKey paymentPublicKey : string) (stasUtxo p : Utxo)
    (splitDestinations : list SplitDestination) (data : option string)
    (isZeroChange : bool) (r : BuildResult) :
  length (buildSplitDestinations E (length splitDestinations)
            (utxo_satoshis stasUtxo)) = length splitDestinations ->
  signed E ownerPrivateKey stasUtxo splitDestinations (Some p)
    paymentPrivateKey data isZeroChange = Ok r
  \/ unSigned E ownerPublicKey stasUtxo paymentPublicKey (Some p)
       splitDestinations data isZeroChange = Ok r ->
  exists measured tx,
    measuredBuild E stasUtxo splitDestinations data isZeroChange
      = Ok (ResTx measured)
    /\ result_tx r = Some tx
    /\ length (inputs measured) = length (inputs tx)
    /\ length (outputs measured) = length (outputs tx).
Proof.
  intros Hlen H.
  assert (Hbuild : exists fee opk ppk ok pk,
             feeEstimate E stasUtxo splitDestinations data isZeroChange = Ok fee
             /\ unSignedFunc E opk stasUtxo ppk (Some p) splitDestinations data
                  isZeroChange ok pk fee false = Ok r).
  { destruct H as [H | H].
    - apply signed_Ok_inv in H as (ok & pk & fee & _ & _ & Hfee & H).
      by exists fee, (publicKey ok), (publicKey pk), (Some ok), (Some pk).
    - apply unSigned_Ok_inv in H as (fee & Hfee & H).
      by exists fee, ownerPublicKey, paymentPublicKey, None, None. }
  destruct Hbuild as (fee & opk & ppk & ok & pk & Hfee & Hr).
  apply feeEstimate_Ok_inv in Hfee as (measured & Hm & _).
  apply unSignedFunc_Ok_inv in Hr as (pl & _ & ->).
  exists measured. eexists. rewrite result_tx_finish.
  split; [exact Hm|]. split; [reflexivity|].
  unfold measuredBuild in Hm.
  apply signedFunc_Ok_inv in Hm as (pl' & _ & [= ->]).
  cbn [inputs outputs]. split; [reflexivity|].
  unfold expectedOutputs.
  rewrite !length_cons, !length_app, !length_map, !length_changeOutputs, Hlen.
  reflexivity.
Qed.

Lemma X13_measured_transaction_has_same_shape_witness :
  exists measured tx,
    measuredBuild (Demo.env 1) Demo.stasUtxo Demo.twoDestinations (Some "cafe")
      false = Ok (ResTx measured)
    /\ result_tx Samples.signedResult = Some tx
    /\ length (inputs measured) = length (inputs tx)
    /\ length (outputs measured) = length (outputs tx).
Proof.
  apply (X13_measured_transaction_has_same_shape (Demo.env 1)
           (Some Demo.ownerKey) (Some Demo.paymentKey) "" "" Demo.stasUtxo
           (Demo.paymentUtxo 5000) Demo.twoDestinations (Some "cafe") false
           Samples.signedResult).
  - reflexivity.
  - left. vm_compute. reflexivity.
Defined.
